(** * The aggregation core of [Dashboard/dashboard.py]

    A shallow embedding of the table transforms of the dashboard script:
    the date-range selection of [main_df] and the aggregators
    [create_daily_orders_df], [create_sum_freight_items_df],
    [create_bystate_df], [create_rfm_df], and
    [plot_order_status_distribution] and [plot_payment_type_distribution]
    with the categorical counters they compute.

    A pandas table is a list of rows in file order.  The pandas operations
    the script calls ([resample], [groupby], [nunique], [sum], [max],
    [value_counts], [sort_values], [sort_index], boolean indexing) are
    written out as list functions with the defaults the script leaves in
    force: [groupby] sorts its group keys and drops rows whose key is
    missing, [sort_values] goes through the reverse / argsort / reverse
    path for a descending sort, [resample] spans the days from the earliest
    to the latest timestamp of its input. *)

From Stdlib Require Import ZArith List String Ascii Bool Lia.
From Stdlib Require Import Permutation Sorted Floats.
Import ListNotations.

Set Implicit Arguments.
Local Open Scope string_scope.
Local Open Scope Z_scope.

(** ** Numbers

    [price], [freight_value] and [total_price] are float64 columns.  The
    transforms only add such values and compare them, so they are written
    over a number interface; [float64] is the instance the script runs
    with, [cents] an exact one (amounts as integer cents). *)

Class Number (A : Type) : Type := {
  num_zero : A;
  num_add  : A -> A -> A;
  num_leb  : A -> A -> bool
}.

#[export] Instance float64 : Number float := {
  num_zero := 0%float;
  num_add  := PrimFloat.add;
  num_leb  := PrimFloat.leb
}.

#[export] Instance cents : Number Z := {
  num_zero := 0;
  num_add  := Z.add;
  num_leb  := Z.leb
}.

(** Addition without rounding: what [cents] has and [float64] has not. *)
Class ExactSum {A : Type} (N : Number A) : Prop := {
  num_add_assoc  : forall x y z : A, num_add x (num_add y z) = num_add (num_add x y) z;
  num_add_comm   : forall x y : A, num_add x y = num_add y x;
  num_add_zero_l : forall x : A, num_add num_zero x = x
}.

(** [comparable x]: [x <= x], which fails for a NaN only. *)
Definition comparable {A : Type} {N : Number A} (x : A) : Prop :=
  num_leb x x = true.

(** A comparison that orders any two comparable values. *)
Class TotalLeb {A : Type} (N : Number A) : Prop := {
  num_leb_total : forall x y : A,
      comparable x -> comparable y -> num_leb x y = true \/ num_leb y x = true;
  num_leb_trans : forall x y z : A,
      num_leb x y = true -> num_leb y z = true -> num_leb x z = true
}.

(** ** Timestamps and calendar dates

    A timestamp is pandas' count of nanoseconds since the epoch; [dt_date]
    is [.dt.date], the calendar day as a day number, so that
    [(d1 - d2).days] is the difference of two day numbers. *)

Definition ns_per_day : Z := 86400 * 1000000000.

Definition dt_date (ts : Z) : Z := ts / ns_per_day.

(** The timestamp of 00:00 on day [d]: the label of a daily bin. *)
Definition midnight (d : Z) : Z := d * ns_per_day.

(** ** The row model

    One line of [all_data.csv] with the columns the transforms read.  An
    empty CSV field is read as NaN.  Of the key columns, [customer_state]
    is nullable here, since what becomes of a row without a state is part
    of what is verified below; the identifier and label columns are taken
    to hold a value in every row. *)

Record OrderLine (A : Type) : Type := {
  order_id                 : string;
  customer_id              : string;
  customer_unique_id       : string;
  customer_state           : option string;
  product_id               : string;
  order_status             : string;
  payment_type             : string;
  price                    : A;
  freight_value            : A;
  total_price              : A;
  order_purchase_timestamp : Z
}.

Abbreviation Table A := (list (OrderLine A)).

(** ** pandas primitives *)

(** [Series.sum()] and the [sum] of an [agg], as the sum of the values
    from left to right, from zero.  Where addition is exact ([ExactSum]
    below) this is the number pandas returns, in whatever order and with
    whatever compensation it adds.  On float64 it is not: the grouped sum
    of pandas is compensated and skips NaN, so the theorems that give the
    value of a grouped sum are stated under [ExactSum]. *)
Definition series_sum {A : Type} `{Number A} (s : list A) : A :=
  fold_left num_add s num_zero.

(** [Series.max()] and [Series.min()] on timestamps or dates; NaN (here
    [None]) on an empty series. *)
Definition series_max (s : list Z) : option Z :=
  match s with
  | [] => None
  | x :: s' => Some (fold_left Z.max s' x)
  end.

Definition series_min (s : list Z) : option Z :=
  match s with
  | [] => None
  | x :: s' => Some (fold_left Z.min s' x)
  end.

(** [Series.nunique()]. *)
Definition nunique (s : list string) : nat :=
  List.length (nodup string_dec s).

(** Missing values removed, as [groupby] does with its keys. *)
Fixpoint dropna {T : Type} (s : list (option T)) : list T :=
  match s with
  | [] => []
  | Some x :: s' => x :: dropna s'
  | None :: s' => dropna s'
  end.

(** *** Sorting

    numpy's default sort promises no order among equal keys; on a short
    array it is an insertion sort, which keeps them in place, and that is
    the sort written here.  The general theorems below use only that its
    output is an ordered permutation of its input; where equal keys end up
    shows only when a sample table is evaluated. *)

Section Sorting.
Variables (T : Type) (le : T -> T -> bool).

Fixpoint insert_sorted (x : T) (l : list T) : list T :=
  match l with
  | [] => [x]
  | y :: l' => if le x y then x :: l else y :: insert_sorted x l'
  end.

Definition argsort (l : list T) : list T := fold_right insert_sorted [] l.

(** [nargsort(..., ascending=False)]: reverse, sort ascending, reverse. *)
Definition nargsort_descending (l : list T) : list T := rev (argsort (rev l)).
End Sorting.

(** [sort_values(by, ascending=False)] on rows keyed by [by]. *)
Definition sort_values_descending {T K : Type} (leb : K -> K -> bool)
    (by_ : T -> K) (l : list T) : list T :=
  nargsort_descending (fun x y => leb (by_ x) (by_ y)) l.

(** The distinct keys in ascending order, as [groupby] lists them. *)
Definition sorted_keys (s : list string) : list string :=
  argsort String.leb (nodup string_dec s).

Definition key_is (k : string) (v : option string) : bool :=
  match v with
  | Some k' => String.eqb k k'
  | None => false
  end.

(** [df.groupby(by)]: one group per distinct non-missing key, keys
    ascending, each group holding its rows in table order. *)
Definition groupby {R : Type} (by_ : R -> option string) (df : list R)
  : list (string * list R) :=
  map (fun k => (k, filter (fun r => key_is k (by_ r)) df))
      (sorted_keys (dropna (map by_ df))).

(** The days [lo], [lo+1], ..., [hi]. *)
Definition date_range (lo hi : Z) : list Z :=
  map (fun i => lo + Z.of_nat i) (seq 0 (Z.to_nat (hi - lo + 1))).

(** [df.resample(rule='D', on=...)]: daily bins from the day of the
    earliest timestamp to the day of the latest one, empty bins included;
    no bin at all for an empty table. *)
Definition resample_D {R : Type} (on : R -> Z) (df : list R)
  : list (Z * list R) :=
  match series_min (map on df), series_max (map on df) with
  | Some first, Some last =>
      map (fun d => (d, filter (fun r => dt_date (on r) =? d) df))
          (date_range (dt_date first) (dt_date last))
  | _, _ => []
  end.

(** [Series.unique()]: the distinct values in order of first appearance. *)
Fixpoint unique (s : list string) : list string :=
  match s with
  | [] => []
  | x :: s' => x :: filter (fun y => negb (String.eqb x y)) (unique s')
  end.

(** Number of rows of [s] that hold [k]. *)
Definition count_rows (k : string) (s : list string) : nat :=
  List.length (filter (String.eqb k) s).

(** [Series.value_counts()]: one count per distinct value, largest count
    first. *)
Definition value_counts (s : list string) : list (string * nat) :=
  sort_values_descending Nat.leb snd
    (map (fun k => (k, count_rows k s)) (unique s)).

(** [Series.sort_index()] on a series indexed by labels. *)
Definition sort_index {V : Type} (s : list (string * V)) : list (string * V) :=
  argsort (fun x y => String.leb (fst x) (fst y)) s.

(** [df[mask]]: the rows at which the boolean series holds [True]. *)
Definition boolean_index {R : Type} (df : list R) (mask : list bool) : list R :=
  map fst (filter snd (combine df mask)).

(** ** Result tables *)

Module DailyOrders.
Record row (A : Type) : Type := {
  order_purchase_timestamp : Z;
  order_count : nat;
  revenue : A
}.
End DailyOrders.

Module FreightItems.
Record row (A : Type) : Type := {
  product_id : string;
  freight_value : A
}.
End FreightItems.

Module ByState.
Record row : Type := {
  customer_state : option string;
  customer_count : nat
}.
End ByState.

(** The frame [create_rfm_df] holds between its [agg] and its [drop]. *)
Module RfmAgg.
Record row (A : Type) : Type := {
  customer_id : string;
  max_order_timestamp : option Z;
  frequency : nat;
  monetary : A
}.
End RfmAgg.

Module Rfm.
Record row (A : Type) : Type := {
  customer_id : string;
  frequency : nat;
  monetary : A;
  recency : Z
}.
End Rfm.

(** ** Ambient state

    What the script can reach outside its tables: the wall clock, read
    for the greeting, and pyplot's registry of figures, which
    [create_rfm_df] and the two plot functions touch.  A computation may
    raise (result [None]). *)

Record World : Type := {
  clock_hour : Z;
  open_figures : nat
}.

Definition M (T : Type) : Type := World -> option (T * World).

Definition ret {T : Type} (x : T) : M T := fun w => Some (x, w).

Definition bind {T U : Type} (m : M T) (k : T -> M U) : M U :=
  fun w => match m w with
           | Some (x, w') => k x w'
           | None => None
           end.

Definition raise {T : Type} : M T := fun _ => None.

Notation "x <- m ;; k" := (bind m (fun x => k))
  (at level 61, m at next level, right associativity).
Notation "m ;;; k" := (bind m (fun _ => k))
  (at level 61, right associativity).

Fixpoint mapM {T U : Type} (f : T -> M U) (l : list T) : M (list U) :=
  match l with
  | [] => ret []
  | x :: l' => y <- f x ;; ys <- mapM f l' ;; ret (y :: ys)
  end.

(** [datetime.now().hour] *)
Definition datetime_now_hour : M Z := fun w => Some (clock_hour w, w).

(** [plt.subplots(...)]: a new figure. *)
Definition plt_subplots : M unit :=
  fun w => Some (tt, {| clock_hour := clock_hour w;
                        open_figures := S (open_figures w) |}).

(** [Series.plot(kind='bar', ax=ax)]: the bars drawn; pandas raises
    IndexError on a series without rows. *)
Definition series_plot_bar (s : list (string * nat)) : M (list (string * nat)) :=
  match s with
  | [] => raise
  | _ :: _ => ret s
  end.

(** [ax.pie(x, labels=...)]: the wedges drawn; matplotlib raises
    ValueError on no sizes at all. *)
Definition ax_pie (x : list float) (labels : list string)
  : M (list (string * float)) :=
  match x with
  | [] => raise
  | _ :: _ => ret (combine labels x)
  end.

(** What a plot function returns: the chart drawn on its figure. *)
Inductive Figure : Type :=
| BarChart (title : string) (bars : list (string * nat)) (texts : list (nat * nat))
| PieChart (title : string) (wedges : list (string * float)).

(** [plt.tight_layout()]: acts on the current figure, opening one when
    there is none. *)
Definition plt_tight_layout : M unit :=
  fun w => Some (tt, {| clock_hour := clock_hour w;
                        open_figures := Nat.max 1 (open_figures w) |}).

(** Lines 11-17. *)
Definition greeting : M string :=
  current_hour <- datetime_now_hour ;;
  ret (if current_hour <? 12 then "Good Morning"
       else if (12 <=? current_hour) && (current_hour <? 18) then "Good Afternoon"
       else "Good Evening").

(** ** The script *)

Section Script.
Context {A : Type} {N : Number A}.

(** Line 108: [df["total_price"] = df["price"] + df["freight_value"]]. *)
Definition assign_total_price (df : Table A) : Table A :=
  map (fun r =>
         {| order_id := order_id r;
            customer_id := customer_id r;
            customer_unique_id := customer_unique_id r;
            customer_state := customer_state r;
            product_id := product_id r;
            order_status := order_status r;
            payment_type := payment_type r;
            price := price r;
            freight_value := freight_value r;
            total_price := num_add (price r) (freight_value r);
            order_purchase_timestamp := order_purchase_timestamp r |}) df.

(** [df["order_purchase_timestamp"].dt.date] *)
Definition purchase_date (r : OrderLine A) : Z :=
  dt_date (order_purchase_timestamp r).

(** The module-level tables: [df], and [main_df] once line 122 has run.
    (Line 95 binds the table it reads to [all_df]; from line 105 on the
    script calls it [df], the name kept here.) *)
Record Globals : Type := {
  df : Table A;
  main_df : option (Table A)
}.

(** The boolean series of lines 122-123. *)
Definition date_mask (start_date end_date : Z) (df : Table A) : list bool :=
  map (fun r => (start_date <=? purchase_date r) && (purchase_date r <=? end_date)) df.

(** The right-hand side of lines 122-123. *)
Definition date_filter (start_date end_date : Z) (df : Table A) : Table A :=
  boolean_index df (date_mask start_date end_date df).

(** Lines 122-123: [main_df = df[(... >= start_date) & (... <= end_date)]]. *)
Definition select_main_df (start_date end_date : Z) (g : Globals) : Globals :=
  {| df := df g;
     main_df := Some (date_filter start_date end_date (df g)) |}.

(** Lines 25-35. *)
Definition create_daily_orders_df (df : Table A) : list (DailyOrders.row A) :=
  map (fun bin =>
         {| DailyOrders.order_purchase_timestamp := midnight (fst bin);
            DailyOrders.order_count := nunique (map (@order_id A) (snd bin));
            DailyOrders.revenue := series_sum (map (@total_price A) (snd bin)) |})
      (resample_D (@order_purchase_timestamp A) df).

(** Lines 37-42. *)
Definition create_sum_freight_items_df (df : Table A) : list (FreightItems.row A) :=
  let freight_items_df :=
    map (fun g =>
           {| FreightItems.product_id := fst g;
              FreightItems.freight_value :=
                series_sum (map (@freight_value A) (snd g)) |})
        (groupby (fun r => Some (product_id r)) df) in
  sort_values_descending num_leb (@FreightItems.freight_value A) freight_items_df.

(** Lines 44-48. *)
Definition create_bystate_df (df : Table A) : list ByState.row :=
  map (fun g =>
         {| ByState.customer_state := Some (fst g);
            ByState.customer_count := nunique (map (@customer_id A) (snd g)) |})
      (groupby (@customer_state A) df).

(** Line 52: the counter [plot_order_status_distribution] charts. *)
Definition order_status_counts (df : Table A) : list (string * nat) :=
  sort_index (value_counts (map (@order_status A) df)).

(** Line 69: the counter [plot_payment_type_distribution] charts. *)
Definition payment_type_counts (df : Table A) : list (string * nat) :=
  value_counts (map (@payment_type A) df).

(** An integer count as float64. *)
Definition float_of_nat (n : nat) : float :=
  PrimFloat.of_uint63 (Uint63.of_Z (Z.of_nat n)).

(** Lines 50-65. *)
Definition plot_order_status_distribution (df : Table A) : M Figure :=
  let counts := order_status_counts df in
  plt_subplots ;;;
  bars <- series_plot_bar counts ;;
  let texts := combine (seq 0 (List.length counts)) (map snd counts) in
  plt_tight_layout ;;;
  ret (BarChart "Distribution of Order Status" bars texts).

(** Lines 67-77. *)
Definition plot_payment_type_distribution (df : Table A) : M Figure :=
  let counts := payment_type_counts df in
  let total := float_of_nat (list_sum (map snd counts)) in
  let payment_type_percentages :=
    map (fun c => (float_of_nat (snd c) / total * 100)%float) counts in
  plt_subplots ;;;
  wedges <- ax_pie payment_type_percentages (map fst counts) ;;
  plt_tight_layout ;;;
  ret (PieChart "Payment Method" wedges).

(** Line 89: [(recent_date - x).days]; a missing operand raises. *)
Definition days_between (recent_date x : option Z) : M Z :=
  match recent_date, x with
  | Some d, Some x' => ret (d - x')
  | _, _ => raise
  end.

(** Lines 79-93. *)
Definition create_rfm_df (df : Table A) : M (list (Rfm.row A)) :=
  let rfm_df :=
    map (fun g =>
           {| RfmAgg.customer_id := fst g;
              RfmAgg.max_order_timestamp :=
                series_max (map (@order_purchase_timestamp A) (snd g));
              RfmAgg.frequency := nunique (map (@order_id A) (snd g));
              RfmAgg.monetary := series_sum (map (@total_price A) (snd g)) |})
        (groupby (fun r => Some (customer_unique_id r)) df) in
  let recent_date := series_max (map purchase_date df) in
  rfm_df' <- mapM (fun c =>
               recency <- days_between recent_date
                            (option_map dt_date (RfmAgg.max_order_timestamp c)) ;;
               ret {| Rfm.customer_id := RfmAgg.customer_id c;
                      Rfm.frequency := RfmAgg.frequency c;
                      Rfm.monetary := RfmAgg.monetary c;
                      Rfm.recency := recency |}) rfm_df ;;
  plt_tight_layout ;;;
  ret rfm_df'.
End Script.

(** ** The script around the aggregators *)

(** [DataFrame.head(n)] and [DataFrame.tail(n)]: the first, and the last,
    [n] rows, all of them when there are fewer. *)
Definition df_head {T : Type} (n : nat) (l : list T) : list T := firstn n l.

Definition df_tail {T : Type} (n : nat) (l : list T) : list T :=
  skipn (List.length l - n) l.

(** Python's [l * n] on lists: [n] copies of [l], none for [n <= 0]. *)
Definition list_times {T : Type} (l : list T) (n : Z) : list T :=
  List.concat (repeat l (Z.to_nat n)).

Section Display.
Context {A : Type} {N : Number A}.

(** Lines 110-111: [df["order_purchase_timestamp"].min().date()] and
    [.max().date()]; no date on an empty table. *)
Definition min_date (df : Table A) : option Z :=
  option_map dt_date (series_min (map (@order_purchase_timestamp A) df)).

Definition max_date (df : Table A) : option Z :=
  option_map dt_date (series_max (map (@order_purchase_timestamp A) df)).

(** Line 136: [daily_orders_df.order_count.sum()]. *)
Definition total_orders (daily_orders_df : list (DailyOrders.row A)) : nat :=
  list_sum (map (@DailyOrders.order_count A) daily_orders_df).

(** Line 159: [["#90CAF9"] * 5 + ["#D3D3D3"] * (len(sum_freight_items_df) - 5)]. *)
Definition freight_colors (sum_freight_items_df : list (FreightItems.row A))
  : list string :=
  list_times ["#90CAF9"] 5
  ++ list_times ["#D3D3D3"] (Z.of_nat (List.length sum_freight_items_df) - 5).

(** Lines 161 and 167: the rows charted as highest and as lowest shipping
    cost. *)
Definition highest_shipping (sum_freight_items_df : list (FreightItems.row A))
  : list (FreightItems.row A) := df_head 5 sum_freight_items_df.

Definition lowest_shipping (sum_freight_items_df : list (FreightItems.row A))
  : list (FreightItems.row A) := df_tail 5 sum_freight_items_df.
End Display.

(** Line 179: [bystate_df.sort_values(by="customer_count", ascending=False)]. *)
Definition bystate_sorted (bystate_df : list ByState.row) : list ByState.row :=
  sort_values_descending Nat.leb ByState.customer_count bystate_df.

(** Line 182: [["#90CAF9"] + ["#D3D3D3"] * (len(bystate_df) - 1)]. *)
Definition bystate_colors (bystate_df : list ByState.row) : list string :=
  ["#90CAF9"] ++ list_times ["#D3D3D3"] (Z.of_nat (List.length bystate_df) - 1).

(** A row of [df] as it stands after line 108. *)
Definition line {A : Type} {N : Number A}
    (order customer customer_unique : string) (state : option string)
    (product status payment : string) (price_ freight : A) (purchased : Z)
  : OrderLine A :=
  {| order_id := order;
     customer_id := customer;
     customer_unique_id := customer_unique;
     customer_state := state;
     product_id := product;
     order_status := status;
     payment_type := payment;
     price := price_;
     freight_value := freight;
     total_price := num_add price_ freight;
     order_purchase_timestamp := purchased |}.

(** * Vocabulary of the statements *)

(** What it is for [m] to be the largest, or smallest, value of a series. *)
Definition is_max (m : Z) (s : list Z) : Prop :=
  In m s /\ forall x, In x s -> x <= m.

Definition is_min (m : Z) (s : list Z) : Prop :=
  In m s /\ forall x, In x s -> m <= x.

(** [selects keep l l']: [l'] is [l] with exactly the rows satisfying
    [keep] retained, in their order and with their multiplicity. *)
Inductive selects {R : Type} (keep : R -> Prop) : list R -> list R -> Prop :=
| selects_nil : selects keep [] []
| selects_keep r l l' : keep r -> selects keep l l' -> selects keep (r :: l) (r :: l')
| selects_drop r l l' : ~ keep r -> selects keep l l' -> selects keep (r :: l) l'.


(** The value [(recent_date - x).days] takes when both dates are there. *)
Definition days_of (recent_date x : option Z) : Z :=
  match recent_date, x with
  | Some d, Some x' => d - x'
  | _, _ => 0
  end.

Definition after_tight_layout (w : World) : World :=
  {| clock_hour := clock_hour w; open_figures := Nat.max 1 (open_figures w) |}.

Definition result {T : Type} (r : option (T * World)) : option T :=
  option_map fst r.

(** Two runs in a row, the second in the state the first left. *)
Definition twice {T : Type} (m : M T) : M (T * T) :=
  r1 <- m ;; r2 <- m ;; ret (r1, r2).

(** Both runs succeed and return one and the same value, whatever the
    ambient state at the start. *)
Definition deterministic {T : Type} (m : M T) : Prop :=
  exists out, forall w, exists w', twice m w = Some ((out, out), w').

Section Vocabulary.
Context {A : Type} {N : Number A}.

Definition in_range (start_date end_date : Z) (r : OrderLine A) : Prop :=
  start_date <= purchase_date r <= end_date.

Definition day_rows (d : Z) (df : Table A) : Table A :=
  filter (fun r => purchase_date r =? d) df.

Definition product_rows (p : string) (df : Table A) : Table A :=
  filter (fun r => String.eqb p (product_id r)) df.

(** The frame before [sort_values]. *)
Definition freight_groups (df : Table A) : list (FreightItems.row A) :=
  map (fun g =>
         {| FreightItems.product_id := fst g;
            FreightItems.freight_value :=
              series_sum (map (@freight_value A) (snd g)) |})
      (groupby (fun r => Some (product_id r)) df).


Definition state_rows (s : string) (df : Table A) : Table A :=
  filter (fun r => key_is s (customer_state r)) df.

Definition customer_rows (c : string) (df : Table A) : Table A :=
  filter (fun r => String.eqb c (customer_unique_id r)) df.

Definition customer_groups (df : Table A) : list (string * Table A) :=
  groupby (fun r => Some (customer_unique_id r)) df.

(** The row the loop of line 89 builds for one group. *)
Definition rfm_entry (df : Table A) (g : string * Table A) : Rfm.row A :=
  {| Rfm.customer_id := fst g;
     Rfm.frequency := nunique (map (@order_id A) (snd g));
     Rfm.monetary := series_sum (map (@total_price A) (snd g));
     Rfm.recency :=
       days_of (series_max (map purchase_date df))
               (option_map dt_date
                  (series_max (map (@order_purchase_timestamp A) (snd g)))) |}.

End Vocabulary.

(** The claim that the rollup has one entry per day of the filter range. *)
Definition one_entry_per_filter_day {A : Type} {N : Number A}
    (df : Table A) (start_date end_date : Z) : Prop :=
  List.length (create_daily_orders_df (date_filter start_date end_date df))
  = Z.to_nat (end_date - start_date + 1).

(** The claim that every customer_state value of the table, a missing one
    included, labels a group of the rollup. *)
Definition every_state_has_group {A : Type} {N : Number A} (df : Table A) : Prop :=
  forall v, In v (map (@customer_state A) df) ->
            In v (map ByState.customer_state (create_bystate_df df)).

Definition rollup_revenue {A : Type} {N : Number A} (main : Table A) : A :=
  series_sum (map (@DailyOrders.revenue A) (create_daily_orders_df main)).

Definition rows_revenue {A : Type} {N : Number A} (main : Table A) : A :=
  series_sum (map (@total_price A) main).

(** ** Vocabulary of the further properties *)

Section GroupVocabulary.
Variables (R K : Type) (id : R -> string) (p : K -> R -> bool).

(** No row lies in two of the groups [ks]. *)
Definition groups_exclusive (ks : list K) : Prop :=
  forall r k k', In k ks -> In k' ks -> p k r = true -> p k' r = true -> k = k'.

(** Every row of [l] lies in one of the groups [ks]. *)
Definition groups_cover (ks : list K) (l : list R) : Prop :=
  forall r, In r l -> exists k, In k ks /\ p k r = true.

(** The distinct identifiers counted group by group, and added up. *)
Definition grouped_nunique (ks : list K) (l : list R) : nat :=
  list_sum (map (fun k => nunique (map id (filter (p k) l))) ks).
End GroupVocabulary.

Section RowVocabulary.
Context {A : Type} {N : Number A}.

Definition on_day (d : Z) (r : OrderLine A) : bool := purchase_date r =? d.

Definition is_customer (k : string) (r : OrderLine A) : bool :=
  String.eqb k (customer_unique_id r).

Definition in_state (k : string) (r : OrderLine A) : bool :=
  key_is k (customer_state r).
End RowVocabulary.

(** * Sample tables *)

Definition noon (d : Z) : Z := midnight d + 12 * 3600 * 1000000000.

(** Orders on 2018-01-01 and 2018-01-03 (days 17532 and 17534), none on
    2018-01-02; the first order has two items. *)
Definition gap_orders : Table Z :=
  [ line "o1" "c1" "u1" (Some "SP") "p1" "delivered" "credit_card" 5000 1000 (noon 17532);
    line "o1" "c1" "u1" (Some "SP") "p2" "delivered" "credit_card" 2000 500 (noon 17532);
    line "o2" "c2" "u2" (Some "RJ") "p1" "shipped" "boleto" 3000 700 (noon 17534) ].

(** Two orders of customer C1, on 2018-01-01 and 2018-01-10. *)
Definition two_orders : Table Z :=
  [ line "o1" "c1" "C1" (Some "SP") "p1" "delivered" "credit_card" 4000 1000 (noon 17532);
    line "o2" "c1" "C1" (Some "SP") "p2" "delivered" "credit_card" 2500 500 (noon 17541) ].


(** A row whose customer_state field is empty in the file. *)
Definition missing_state : Table Z :=
  [ line "o1" "c1" "u1" None "p1" "delivered" "credit_card" 5000 1000 (noon 1) ].

(** Prices 0.1, 0.2 and 0.3 as float64, the first on day 1, the others on
    day 2, no freight. *)
Definition float_orders : Table float :=
  [ line "o1" "c1" "u1" (Some "SP") "p1" "delivered" "credit_card"
      0x1.999999999999ap-4%float 0%float (noon 1);
    line "o2" "c2" "u2" (Some "SP") "p2" "delivered" "credit_card"
      0x1.999999999999ap-3%float 0%float (noon 2);
    line "o3" "c3" "u3" (Some "SP") "p3" "delivered" "credit_card"
      0x1.3333333333333p-2%float 0%float (noon 2) ].

(** [float_orders] through lines 108 and 122, with the range of days 1
    to 2. *)
Definition float_main : Table float :=
  date_filter 1 2 (assign_total_price float_orders).

Definition w0 : World := {| clock_hour := 9; open_figures := 0 |}.

(** Orders on days 1, 3 and 5. *)
Definition three_days : Table Z :=
  [ line "o1" "c1" "u1" (Some "SP") "p1" "delivered" "credit_card" 5000 1000 (noon 1);
    line "o2" "c2" "u2" (Some "RJ") "p2" "shipped" "boleto" 3000 700 (noon 3);
    line "o3" "c3" "u3" (Some "MG") "p3" "delivered" "credit_card" 2000 500 (noon 5) ].

(** Seven products with seven different freight values, in cents. *)
Definition seven_products : Table Z :=
  [ line "o1" "c1" "u1" (Some "SP") "pc" "delivered" "credit_card" 5000 300 (noon 1);
    line "o2" "c2" "u2" (Some "SP") "pa" "delivered" "credit_card" 5000 700 (noon 1);
    line "o3" "c3" "u3" (Some "SP") "pg" "delivered" "credit_card" 5000 100 (noon 2);
    line "o4" "c4" "u4" (Some "SP") "pb" "delivered" "credit_card" 5000 600 (noon 2);
    line "o5" "c5" "u5" (Some "SP") "pe" "delivered" "credit_card" 5000 500 (noon 3);
    line "o6" "c6" "u6" (Some "SP") "pd" "delivered" "credit_card" 5000 200 (noon 3);
    line "o7" "c7" "u7" (Some "SP") "pf" "delivered" "credit_card" 5000 400 (noon 4);
    line "o8" "c8" "u8" (Some "SP") "pc" "delivered" "credit_card" 5000 50 (noon 4) ].

(** One order whose two items carry different purchase days. *)
Definition split_order : Table Z :=
  [ line "o1" "c1" "u1" (Some "SP") "p1" "delivered" "credit_card" 5000 1000 (noon 1);
    line "o1" "c1" "u1" (Some "SP") "p2" "delivered" "credit_card" 2000 500 (noon 2) ].

(** * Properties of the pandas primitives *)

(** [cents] adds exactly and orders any two amounts. *)
#[export] Instance cents_exact : ExactSum cents.
Proof. split; intros; simpl; lia. Qed.

#[export] Instance cents_total : TotalLeb cents.
Proof.
  split; simpl.
  - intros x y _ _.
    destruct (Z.leb_spec x y); [left; reflexivity | right; apply Z.leb_le; lia].
  - intros x y z Hxy Hyz. apply Z.leb_le. apply Z.leb_le in Hxy, Hyz. lia.
Qed.

(** float64 addition rounds, and is not associative. *)
Lemma float64_not_exact : ~ ExactSum float64.
Proof.
  intros [Hassoc _ _].
  specialize (Hassoc 0x1.999999999999ap-4%float 0x1.999999999999ap-3%float
                     0x1.3333333333333p-2%float).
  vm_compute in Hassoc. discriminate Hassoc.
Qed.

(** The comparison of float64 values, as the standard library specifies
    it on their decoded form: a total preorder on the values that are not
    NaN. *)
Lemma SFleb_trans (x y z : spec_float) :
  SFleb x y = true -> SFleb y z = true -> SFleb x z = true.
Proof.
  unfold SFleb, SFcompare.
  destruct x as [sx|sx| |sx mx ex], y as [sy|sy| |sy my ey], z as [sz|sz| |sz mz ez];
    try discriminate; try reflexivity;
    repeat match goal with s : bool |- _ => destruct s end;
    try discriminate; try reflexivity; intros Hxy Hyz;
    change (Pos.compare_cont Eq) with Pos.compare in *;
    destruct (Z.compare_spec ex ey), (Z.compare_spec ey ez), (Z.compare_spec ex ez);
    try discriminate; try reflexivity; try lia;
    destruct (Pos.compare_spec mx my), (Pos.compare_spec my mz), (Pos.compare_spec mx mz);
    simpl in *; try discriminate; try reflexivity; try lia.
Qed.

Lemma SFleb_total (x y : spec_float) :
  SFleb x x = true -> SFleb y y = true -> SFleb x y = true \/ SFleb y x = true.
Proof.
  unfold SFleb, SFcompare.
  destruct x as [sx|sx| |sx mx ex], y as [sy|sy| |sy my ey];
    try discriminate; intros _ _;
    repeat match goal with s : bool |- _ => destruct s end;
    try (left; reflexivity); try (right; reflexivity);
    change (Pos.compare_cont Eq) with Pos.compare in *;
    destruct (Z.compare_spec ex ey), (Z.compare_spec ey ex); try lia;
    try (left; reflexivity); try (right; reflexivity);
    destruct (Pos.compare_spec mx my), (Pos.compare_spec my mx); try lia;
    simpl; try (left; reflexivity); try (right; reflexivity).
Qed.

#[export] Instance float64_total : TotalLeb float64.
Proof.
  split; unfold comparable; simpl.
  - intros x y. rewrite !leb_spec. apply SFleb_total.
  - intros x y z. rewrite !leb_spec. apply SFleb_trans.
Qed.

Section SortingFacts.
Variables (T : Type) (le : T -> T -> bool).

Lemma insert_sorted_perm (x : T) (l : list T) :
  Permutation (insert_sorted le x l) (x :: l).
Proof.
  induction l as [|y l IH]; simpl.
  - apply Permutation_refl.
  - destruct (le x y).
    + apply Permutation_refl.
    + eapply perm_trans; [apply perm_skip, IH | apply perm_swap].
Qed.

Lemma argsort_perm (l : list T) : Permutation (argsort le l) l.
Proof.
  induction l as [|x l IH]; simpl.
  - constructor.
  - eapply perm_trans; [apply insert_sorted_perm | apply perm_skip, IH].
Qed.

Lemma nargsort_descending_perm (l : list T) :
  Permutation (nargsort_descending le l) l.
Proof.
  unfold nargsort_descending.
  eapply perm_trans; [symmetry; apply Permutation_rev |].
  eapply perm_trans; [apply argsort_perm |].
  symmetry; apply Permutation_rev.
Qed.

Hypothesis le_total :
  forall x y, le x x = true -> le y y = true -> le x y = true \/ le y x = true.
Hypothesis le_trans : forall x y z, le x y = true -> le y z = true -> le x z = true.

Lemma insert_sorted_sorted (x : T) (l : list T) :
  le x x = true -> Forall (fun y => le y y = true) l ->
  StronglySorted (fun x y => le x y = true) l ->
  StronglySorted (fun x y => le x y = true) (insert_sorted le x l).
Proof.
  intros Hx Hl Hs. induction Hs as [|y l Hs IH Hy]; simpl.
  - repeat constructor.
  - inversion Hl as [|y' l' Hyy Hl']; subst. destruct (le x y) eqn:E.
    + constructor; [constructor; assumption |].
      constructor; [exact E |].
      eapply Forall_impl; [| exact Hy].
      intros z Hz. eapply le_trans; eassumption.
    + constructor; [apply IH; exact Hl' |].
      assert (Hyx : le y x = true)
        by (destruct (le_total Hx Hyy) as [F|F]; [congruence | exact F]).
      eapply Permutation_Forall; [symmetry; apply insert_sorted_perm |].
      constructor; assumption.
Qed.

Lemma argsort_sorted (l : list T) :
  Forall (fun y => le y y = true) l ->
  StronglySorted (fun x y => le x y = true) (argsort le l).
Proof.
  induction 1 as [|x l Hx Hl IH]; simpl.
  - constructor.
  - apply insert_sorted_sorted; [exact Hx | | exact IH].
    eapply Permutation_Forall; [symmetry; apply argsort_perm | exact Hl].
Qed.

Lemma StronglySorted_snoc (R : T -> T -> Prop) (l : list T) (x : T) :
  StronglySorted R l -> Forall (fun y => R y x) l -> StronglySorted R (l ++ [x]).
Proof.
  induction 1 as [|y l Hs IH Hy]; intros Hx; simpl.
  - repeat constructor.
  - inversion Hx; subst. constructor.
    + apply IH; assumption.
    + apply Forall_app; split; [exact Hy | repeat constructor; assumption].
Qed.

Lemma nargsort_descending_sorted (l : list T) :
  Forall (fun y => le y y = true) l ->
  StronglySorted (fun x y => le y x = true) (nargsort_descending le l).
Proof.
  intros Hl. unfold nargsort_descending.
  assert (Hs : StronglySorted (fun x y => le x y = true) (argsort le (rev l)))
    by (apply argsort_sorted, Forall_rev, Hl).
  revert Hs. generalize (argsort le (rev l)) as s.
  induction 1 as [|y s Hs IH Hy]; simpl.
  - constructor.
  - apply StronglySorted_snoc; [exact IH |].
    apply Forall_rev. exact Hy.
Qed.
End SortingFacts.

Lemma fold_left_max_spec (s : list Z) (x : Z) :
  is_max (fold_left Z.max s x) (x :: s).
Proof.
  revert x; induction s as [|y s IH]; intros x; simpl.
  - split; [left; reflexivity | intros z [<-|[]]; lia].
  - destruct (IH (Z.max x y)) as [Hin Hle]. split.
    + destruct Hin as [Hin|Hin]; [| right; right; exact Hin].
      rewrite <- Hin.
      destruct (Z.max_spec x y) as [[_ E]|[_ E]]; rewrite E; simpl; auto.
    + intros z [<-|[<-|Hz]].
      * specialize (Hle (Z.max x y) (or_introl eq_refl)). lia.
      * specialize (Hle (Z.max x y) (or_introl eq_refl)). lia.
      * apply Hle. right; exact Hz.
Qed.

Lemma fold_left_min_spec (s : list Z) (x : Z) :
  is_min (fold_left Z.min s x) (x :: s).
Proof.
  revert x; induction s as [|y s IH]; intros x; simpl.
  - split; [left; reflexivity | intros z [<-|[]]; lia].
  - destruct (IH (Z.min x y)) as [Hin Hle]. split.
    + destruct Hin as [Hin|Hin]; [| right; right; exact Hin].
      rewrite <- Hin.
      destruct (Z.min_spec x y) as [[_ E]|[_ E]]; rewrite E; simpl; auto.
    + intros z [<-|[<-|Hz]].
      * specialize (Hle (Z.min x y) (or_introl eq_refl)). lia.
      * specialize (Hle (Z.min x y) (or_introl eq_refl)). lia.
      * apply Hle. right; exact Hz.
Qed.

Lemma series_max_spec (s : list Z) (m : Z) :
  series_max s = Some m -> is_max m s.
Proof.
  destruct s as [|x s]; simpl; [discriminate |].
  intros [= <-]. apply fold_left_max_spec.
Qed.

Lemma series_min_spec (s : list Z) (m : Z) :
  series_min s = Some m -> is_min m s.
Proof.
  destruct s as [|x s]; simpl; [discriminate |].
  intros [= <-]. apply fold_left_min_spec.
Qed.

Lemma series_max_nonempty (s : list Z) :
  s <> [] -> exists m, series_max s = Some m.
Proof. destruct s; [congruence | eexists; reflexivity]. Qed.

Lemma is_max_unique (s : list Z) (m m' : Z) :
  is_max m s -> is_max m' s -> m = m'.
Proof. intros [I L] [I' L']. specialize (L _ I'). specialize (L' _ I). lia. Qed.

Lemma is_min_unique (s : list Z) (m m' : Z) :
  is_min m s -> is_min m' s -> m = m'.
Proof. intros [I L] [I' L']. specialize (L _ I'). specialize (L' _ I). lia. Qed.

Lemma series_max_complete (s : list Z) (m : Z) :
  is_max m s -> series_max s = Some m.
Proof.
  intros Hm. destruct (series_max s) as [m'|] eqn:E.
  - f_equal. eapply is_max_unique; [apply series_max_spec, E | exact Hm].
  - destruct s; [destruct Hm as [[] _] | discriminate].
Qed.

Lemma series_min_complete (s : list Z) (m : Z) :
  is_min m s -> series_min s = Some m.
Proof.
  intros Hm. destruct (series_min s) as [m'|] eqn:E.
  - f_equal. eapply is_min_unique; [apply series_min_spec, E | exact Hm].
  - destruct s; [destruct Hm as [[] _] | discriminate].
Qed.

Lemma dt_date_mono (t1 t2 : Z) : t1 <= t2 -> dt_date t1 <= dt_date t2.
Proof. intros. unfold dt_date. apply Z.div_le_mono; [reflexivity | exact H]. Qed.

Lemma dt_date_midnight (d : Z) : dt_date (midnight d) = d.
Proof. unfold dt_date, midnight. apply Z.div_mul. discriminate. Qed.

(** The day of the latest timestamp is the latest day. *)
Lemma is_max_dt_date (m : Z) (s : list Z) :
  is_max m s -> is_max (dt_date m) (map dt_date s).
Proof.
  intros [I L]. split.
  - apply in_map, I.
  - intros d Hd. apply in_map_iff in Hd as (t & <- & Ht).
    apply dt_date_mono, L, Ht.
Qed.

Lemma date_range_In (lo hi d : Z) :
  In d (date_range lo hi) <-> lo <= d <= hi.
Proof.
  unfold date_range. rewrite in_map_iff. split.
  - intros (i & <- & Hi). apply in_seq in Hi. lia.
  - intros Hd. exists (Z.to_nat (d - lo)). split; [lia |].
    apply in_seq. lia.
Qed.

Lemma date_range_length (lo hi : Z) :
  List.length (date_range lo hi) = Z.to_nat (hi - lo + 1).
Proof. unfold date_range. now rewrite length_map, length_seq. Qed.

Lemma date_range_sorted (lo hi : Z) : StronglySorted Z.lt (date_range lo hi).
Proof.
  unfold date_range. generalize (Z.to_nat (hi - lo + 1)) as n.
  generalize 0%nat as k. intros k n; revert k.
  induction n as [|n IH]; intros k; simpl.
  - constructor.
  - constructor; [apply IH |].
    apply Forall_forall. intros d Hd.
    apply in_map_iff in Hd as (i & <- & Hi). apply in_seq in Hi. lia.
Qed.

Lemma StronglySorted_lt_NoDup (l : list Z) : StronglySorted Z.lt l -> NoDup l.
Proof.
  induction 1 as [|x l Hs IH Hx]; constructor; [| exact IH].
  intros Hin. rewrite Forall_forall in Hx. specialize (Hx _ Hin). lia.
Qed.

Lemma dropna_In {T : Type} (s : list (option T)) (x : T) :
  In x (dropna s) <-> In (Some x) s.
Proof.
  induction s as [|[y|] s IH]; simpl.
  - tauto.
  - rewrite IH. split; intros [E|H]; auto; left; congruence.
  - rewrite IH. split; [auto | intros [E|H]; [discriminate | exact H]].
Qed.

Lemma sorted_keys_In (s : list string) (k : string) :
  In k (sorted_keys s) <-> In k s.
Proof.
  unfold sorted_keys. rewrite <- (nodup_In string_dec s k).
  split; apply Permutation_in;
    [apply argsort_perm | symmetry; apply argsort_perm].
Qed.

Lemma sorted_keys_NoDup (s : list string) : NoDup (sorted_keys s).
Proof.
  unfold sorted_keys.
  eapply Permutation_NoDup; [symmetry; apply argsort_perm | apply NoDup_nodup].
Qed.

Lemma key_is_true (k : string) (v : option string) :
  key_is k v = true <-> v = Some k.
Proof.
  destruct v as [k'|]; simpl.
  - rewrite String.eqb_eq. split; congruence.
  - split; discriminate.
Qed.

Section GroupbyFacts.
Variables (R : Type) (by_ : R -> option string).

Lemma groupby_keys (df : list R) :
  map fst (groupby by_ df) = sorted_keys (dropna (map by_ df)).
Proof. unfold groupby. rewrite map_map. simpl. apply map_id. Qed.

Lemma groupby_In (df : list R) (g : string * list R) :
  In g (groupby by_ df) <->
  In (Some (fst g)) (map by_ df) /\
  snd g = filter (fun r => key_is (fst g) (by_ r)) df.
Proof.
  unfold groupby. rewrite in_map_iff. split.
  - intros (k & <- & Hk). simpl. split; [| reflexivity].
    apply sorted_keys_In, dropna_In in Hk. exact Hk.
  - intros [Hk Hg]. exists (fst g). split.
    + destruct g; simpl in *; congruence.
    + apply sorted_keys_In, dropna_In, Hk.
Qed.

(** Every group holds at least one row. *)
Lemma groupby_nonempty (df : list R) (g : string * list R) :
  In g (groupby by_ df) -> snd g <> [].
Proof.
  intros Hg. apply groupby_In in Hg as [Hk ->].
  apply in_map_iff in Hk as (r & Hr & Hin).
  intros E. assert (Hf : In r (filter (fun r => key_is (fst g) (by_ r)) df)).
  { apply filter_In. split; [exact Hin |]. apply key_is_true. exact Hr. }
  rewrite E in Hf. exact Hf.
Qed.

Lemma groupby_NoDup (df : list R) : NoDup (map fst (groupby by_ df)).
Proof. rewrite groupby_keys. apply sorted_keys_NoDup. Qed.
End GroupbyFacts.

Lemma boolean_index_filter {R : Type} (p : R -> bool) (df : list R) :
  boolean_index df (map p df) = filter p df.
Proof.
  unfold boolean_index. induction df as [|r df IH]; simpl; [reflexivity |].
  destruct (p r); simpl; rewrite IH; reflexivity.
Qed.

Lemma filter_selects {R : Type} (p : R -> bool) (keep : R -> Prop) (l : list R) :
  (forall r, p r = true <-> keep r) -> selects keep l (filter p l).
Proof.
  intros Hp. induction l as [|r l IH]; simpl.
  - constructor.
  - destruct (p r) eqn:E.
    + apply selects_keep; [apply Hp, E | exact IH].
    + apply selects_drop; [| exact IH].
      intros Hk. apply Hp in Hk. congruence.
Qed.

Lemma filter_none {R : Type} (l : list R) : filter (fun _ => false) l = [].
Proof. induction l; simpl; auto. Qed.

Lemma filter_all {R : Type} (p : R -> bool) (l : list R) :
  (forall r, In r l -> p r = true) -> filter p l = l.
Proof.
  induction l as [|r l IH]; intros H; simpl; [reflexivity |].
  rewrite (H r (or_introl eq_refl)). f_equal.
  apply IH. intros r' Hr'. apply H. right; exact Hr'.
Qed.

(** * The date-range filter *)

Section FilterFacts.
Context {A : Type} {N : Number A}.

Lemma date_filter_eq (start_date end_date : Z) (df : Table A) :
  date_filter start_date end_date df =
  filter (fun r => (start_date <=? purchase_date r) && (purchase_date r <=? end_date)) df.
Proof. unfold date_filter, date_mask. apply boolean_index_filter. Qed.

Lemma date_filter_In (start_date end_date : Z) (df : Table A) (r : OrderLine A) :
  In r (date_filter start_date end_date df) <->
  In r df /\ in_range start_date end_date r.
Proof.
  rewrite date_filter_eq, filter_In, andb_true_iff, !Z.leb_le.
  unfold in_range. tauto.
Qed.

(** C8: the selection of lines 122-123 keeps exactly the rows whose
    purchase date lies in [start_date, end_date], both bounds included
    (same rows, same order, same multiplicity), and the source table [df]
    is the same after the selection as before. *)
Theorem select_main_df_inclusive (g : Globals (A:=A)) (start_date end_date : Z) :
  df (select_main_df start_date end_date g) = df g /\
  exists t : Table A,
    main_df (select_main_df start_date end_date g) = Some t /\
    selects (in_range start_date end_date) (df g) t /\
    (forall r, In r t <-> In r (df g) /\ start_date <= purchase_date r <= end_date).
Proof.
  split; [reflexivity |].
  exists (date_filter start_date end_date (df g)).
  split; [reflexivity |]. split.
  - rewrite date_filter_eq. apply filter_selects.
    intros r. rewrite andb_true_iff, !Z.leb_le. unfold in_range. tauto.
  - intros r. apply date_filter_In.
Qed.
End FilterFacts.

(** * The daily rollup *)

Section DailyFacts.
Context {A : Type} {N : Number A}.

Lemma create_daily_orders_df_bins (df : Table A) (first last : Z) :
  series_min (map (@order_purchase_timestamp A) df) = Some first ->
  series_max (map (@order_purchase_timestamp A) df) = Some last ->
  create_daily_orders_df df =
  map (fun d =>
         {| DailyOrders.order_purchase_timestamp := midnight d;
            DailyOrders.order_count := nunique (map (@order_id A) (day_rows d df));
            DailyOrders.revenue := series_sum (map (@total_price A) (day_rows d df)) |})
      (date_range (dt_date first) (dt_date last)).
Proof.
  intros Hmin Hmax. unfold create_daily_orders_df, resample_D.
  rewrite Hmin, Hmax, map_map. reflexivity.
Qed.

Lemma day_rows_empty (d : Z) (df : Table A) :
  (forall r, In r df -> purchase_date r <> d) -> day_rows d df = [].
Proof.
  intros H. unfold day_rows. induction df as [|r df IH]; simpl; [reflexivity |].
  destruct (Z.eqb_spec (purchase_date r) d) as [E|E].
  - exfalso. apply (H r); [left; reflexivity | exact E].
  - apply IH. intros r' Hr'. apply H. right; exact Hr'.
Qed.

(** C1 (amended): the rollup of a table whose earliest and latest
    purchase timestamps are [first] and [last] has exactly one entry per
    calendar day from the day of [first] to the day of [last], in
    ascending order of date; the entry of a day holds the number of
    distinct orders of that day's rows, and on a day without rows an
    order count of 0 and a revenue of 0. *)
Theorem create_daily_orders_df_zero_fill (df : Table A) (first last : Z) :
  is_min first (map (@order_purchase_timestamp A) df) ->
  is_max last (map (@order_purchase_timestamp A) df) ->
  let daily := create_daily_orders_df df in
  map (fun e => dt_date (DailyOrders.order_purchase_timestamp e)) daily
    = date_range (dt_date first) (dt_date last) /\
  List.length daily = Z.to_nat (dt_date last - dt_date first + 1) /\
  StronglySorted Z.lt (map (@DailyOrders.order_purchase_timestamp A) daily) /\
  (forall e, In e daily ->
     let d := dt_date (DailyOrders.order_purchase_timestamp e) in
     DailyOrders.order_count e = nunique (map (@order_id A) (day_rows d df)) /\
     ((forall r, In r df -> purchase_date r <> d) ->
      DailyOrders.order_count e = 0%nat /\ DailyOrders.revenue e = num_zero)).
Proof.
  intros Hmin Hmax daily. subst daily.
  rewrite (create_daily_orders_df_bins df
             (series_min_complete Hmin) (series_max_complete Hmax)).
  set (days := date_range (dt_date first) (dt_date last)).
  repeat split.
  - rewrite map_map. simpl.
    rewrite (map_ext _ (fun d => d)) by (intros; apply dt_date_midnight).
    apply map_id.
  - rewrite length_map. apply date_range_length.
  - rewrite map_map. simpl.
    generalize (date_range_sorted (dt_date first) (dt_date last)).
    fold days. induction 1 as [|d l Hs IH Hd]; simpl; constructor.
    + exact IH.
    + apply Forall_forall. intros t Ht.
      apply in_map_iff in Ht as (d' & <- & Hd').
      rewrite Forall_forall in Hd. specialize (Hd _ Hd').
      unfold midnight, ns_per_day. lia.
  - apply in_map_iff in H as (d' & <- & _). simpl.
    rewrite dt_date_midnight. reflexivity.
  - apply in_map_iff in H as (d' & <- & _). simpl in *.
    rewrite dt_date_midnight in H0. rewrite (day_rows_empty _ H0). reflexivity.
  - apply in_map_iff in H as (d' & <- & _). simpl in *.
    rewrite dt_date_midnight in H0. rewrite (day_rows_empty _ H0). reflexivity.
Qed.
End DailyFacts.

(** * Sums under exact addition *)

Section ExactSums.
Context {A : Type} {N : Number A} {E : ExactSum N}.

Lemma fold_left_add_shift (l : list A) (a : A) :
  fold_left num_add l a = num_add a (fold_left num_add l num_zero).
Proof.
  revert a; induction l as [|y l IH]; intros a; simpl.
  - rewrite num_add_comm. symmetry. apply num_add_zero_l.
  - rewrite (IH (num_add a y)), (IH (num_add num_zero y)).
    rewrite num_add_zero_l. symmetry. apply num_add_assoc.
Qed.

Lemma series_sum_cons (x : A) (l : list A) :
  series_sum (x :: l) = num_add x (series_sum l).
Proof.
  unfold series_sum. simpl. rewrite fold_left_add_shift.
  rewrite num_add_zero_l. reflexivity.
Qed.

(** The sum does not depend on the order of the values. *)
Lemma series_sum_perm (s s' : list A) :
  Permutation s s' -> series_sum s = series_sum s'.
Proof.
  induction 1 as [| x l l' _ IH | x y l | l l' l'' _ IH1 _ IH2].
  - reflexivity.
  - rewrite !series_sum_cons, IH. reflexivity.
  - rewrite !series_sum_cons, !num_add_assoc. f_equal. apply num_add_comm.
  - congruence.
Qed.

(** A sum over rows satisfying one of two exclusive conditions is the
    sum of the two partial sums. *)
Lemma series_sum_filter_orb (R : Type) (f : R -> A) (p q : R -> bool) (l : list R) :
  (forall r, In r l -> p r = true -> q r = true -> False) ->
  series_sum (map f (filter (fun r => p r || q r) l)) =
  num_add (series_sum (map f (filter p l))) (series_sum (map f (filter q l))).
Proof.
  induction l as [|r l IH]; intros Hex; simpl.
  - symmetry. apply num_add_zero_l.
  - assert (IH' := IH (fun r' Hr' => Hex r' (or_intror Hr'))).
    specialize (Hex r (or_introl eq_refl)).
    destruct (p r) eqn:Ep, (q r) eqn:Eq; simpl.
    + exfalso. apply Hex; reflexivity.
    + rewrite !series_sum_cons, IH'. apply num_add_assoc.
    + rewrite !series_sum_cons, IH'.
      rewrite !num_add_assoc. f_equal. apply num_add_comm.
    + exact IH'.
Qed.

(** Summing the daily sums over distinct days is summing the rows that
    fall on one of those days. *)
Lemma daily_sums_partition (df : Table A) (days : list Z) :
  NoDup days ->
  series_sum (map (fun d => series_sum (map (@total_price A) (day_rows d df))) days) =
  series_sum (map (@total_price A)
                (filter (fun r => existsb (Z.eqb (purchase_date r)) days) df)).
Proof.
  induction 1 as [|d days Hd Hnd IH]; simpl.
  - rewrite filter_none. reflexivity.
  - rewrite series_sum_cons, IH. unfold day_rows. symmetry.
    apply (series_sum_filter_orb (@total_price A)
             (fun r => purchase_date r =? d)
             (fun r => existsb (Z.eqb (purchase_date r)) days)).
    intros r _ H1 H2. apply Z.eqb_eq in H1.
    apply existsb_exists in H2 as (d' & Hd' & Hr).
    apply Z.eqb_eq in Hr. apply Hd. congruence.
Qed.

Lemma create_daily_orders_df_conserves (df : Table A) :
  series_sum (map (@DailyOrders.revenue A) (create_daily_orders_df df)) =
  series_sum (map (@total_price A) df).
Proof.
  destruct (series_min (map (@order_purchase_timestamp A) df)) as [first|] eqn:Hmin;
    [| destruct df; [reflexivity | discriminate]].
  destruct (series_max (map (@order_purchase_timestamp A) df)) as [last|] eqn:Hmax;
    [| destruct df; [reflexivity | discriminate]].
  rewrite (create_daily_orders_df_bins df Hmin Hmax), map_map. simpl.
  rewrite daily_sums_partition
    by (apply StronglySorted_lt_NoDup, date_range_sorted).
  rewrite filter_all; [reflexivity |].
  intros r Hr. apply existsb_exists. exists (purchase_date r).
  split; [| apply Z.eqb_refl].
  apply date_range_In.
  apply series_min_spec in Hmin as [_ Hlo].
  apply series_max_spec in Hmax as [_ Hhi].
  assert (Hin : In (order_purchase_timestamp r) (map (@order_purchase_timestamp A) df))
    by (apply in_map, Hr).
  unfold purchase_date. split; apply dt_date_mono; auto.
Qed.

(** C4 (amended): when amounts add without rounding, the revenue column
    of the daily rollup of the filtered rows sums to the sum of their
    [total_price], which line 108 set to [price + freight_value]. *)
Theorem revenue_conservation_exact (all_df : Table A) (start_date end_date : Z) :
  let main := date_filter start_date end_date (assign_total_price all_df) in
  series_sum (map (@DailyOrders.revenue A) (create_daily_orders_df main)) =
  series_sum (map (@total_price A) main) /\
  forall r, In r main -> total_price r = num_add (price r) (freight_value r).
Proof.
  intros main. split.
  - apply create_daily_orders_df_conserves.
  - intros r Hr. apply date_filter_In in Hr as [Hr _].
    unfold assign_total_price in Hr.
    apply in_map_iff in Hr as (r0 & <- & _). reflexivity.
Qed.
End ExactSums.

(** [nunique] is the cardinality of the set of values of the series. *)
Lemma nunique_card (s ids : list string) :
  NoDup ids -> (forall x, In x ids <-> In x s) -> nunique s = List.length ids.
Proof.
  intros Hnd Hin. unfold nunique. apply Permutation_length.
  apply NoDup_Permutation; [apply NoDup_nodup | exact Hnd |].
  intros x. rewrite nodup_In. symmetry. apply Hin.
Qed.

Lemma nunique_le_length (s : list string) : (nunique s <= List.length s)%nat.
Proof.
  unfold nunique. induction s as [|x s IH]; simpl; [lia |].
  destruct (in_dec string_dec x s); simpl; lia.
Qed.

(** * The freight rollup *)

Section FreightFacts.
Context {A : Type} {N : Number A}.

Lemma create_sum_freight_items_df_perm (df : Table A) :
  Permutation (create_sum_freight_items_df df) (freight_groups df).
Proof. apply nargsort_descending_perm. Qed.

Lemma freight_groups_ids (df : Table A) :
  map (@FreightItems.product_id A) (freight_groups df) =
  sorted_keys (map (@product_id A) df).
Proof.
  unfold freight_groups. rewrite map_map. simpl.
  rewrite <- (map_map fst (fun k => k)), map_id, groupby_keys. f_equal.
  induction df as [|r df IH]; simpl; [reflexivity | now rewrite IH].
Qed.

Lemma freight_groups_sum (df : Table A) (e : FreightItems.row A) :
  In e (freight_groups df) ->
  FreightItems.freight_value e =
  series_sum (map (@freight_value A) (product_rows (FreightItems.product_id e) df)).
Proof.
  unfold freight_groups. intros He.
  apply in_map_iff in He as (g & <- & Hg). simpl.
  apply groupby_In in Hg as [_ ->]. reflexivity.
Qed.

End FreightFacts.

(** * The by-state rollup *)

Section ByStateFacts.
Context {A : Type} {N : Number A}.

(** C6 (amended): the by-state rollup has one group per customer_state
    value that is present in the table, unknown codes included, each
    with the number of distinct customer_id values among the rows of
    that state; rows whose customer_state is missing belong to no group. *)
Theorem create_bystate_df_groups (df : Table A) :
  let out := create_bystate_df df in
  NoDup (map ByState.customer_state out) /\
  (forall s, In (Some s) (map ByState.customer_state out)
             <-> In (Some s) (map (@customer_state A) df)) /\
  ~ In None (map ByState.customer_state out) /\
  (forall e s, In e out -> ByState.customer_state e = Some s ->
     forall ids, NoDup ids ->
       (forall c, In c ids <->
                  exists r, In r df /\ customer_state r = Some s /\ customer_id r = c) ->
       ByState.customer_count e = List.length ids).
Proof.
  intros out. subst out. unfold create_bystate_df.
  set (groups := groupby (@customer_state A) df).
  assert (Hst : map ByState.customer_state
                  (map (fun g => {| ByState.customer_state := Some (fst g);
                                    ByState.customer_count :=
                                      nunique (map (@customer_id A) (snd g)) |}) groups)
                = map Some (map fst groups)).
  { rewrite !map_map. reflexivity. }
  assert (Hrows : forall s r, In r (state_rows s df) <-> In r df /\ customer_state r = Some s).
  { intros s r. unfold state_rows. rewrite filter_In, key_is_true. tauto. }
  split; [| split; [| split]].
  - rewrite Hst. apply Finite.Injective_map_NoDup; [intros x y; congruence |].
    apply groupby_NoDup.
  - intros s. rewrite Hst. split.
    + intros Hin. apply in_map_iff in Hin as (k & [= ->] & Hk).
      subst groups. rewrite groupby_keys in Hk.
      apply sorted_keys_In, dropna_In in Hk. exact Hk.
    + intros Hin. apply in_map. subst groups.
      rewrite groupby_keys. apply sorted_keys_In, dropna_In, Hin.
  - rewrite Hst. intros Hin. apply in_map_iff in Hin as (k & Hk & _). discriminate.
  - intros e s He Hs ids Hnd Hids.
    apply in_map_iff in He as (g & <- & Hg). simpl in Hs.
    injection Hs as <-. simpl.
    apply groupby_In in Hg as [_ ->].
    apply nunique_card; [exact Hnd |].
    intros c. rewrite Hids, in_map_iff. fold (state_rows (fst g) df).
    split.
    + intros (r & Hr & Hs & Hc). exists r. split; [exact Hc |].
      apply Hrows. split; assumption.
    + intros (r & Hc & Hr). apply Hrows in Hr as [Hr Hs]. exists r. auto.
Qed.
End ByStateFacts.

(** * The categorical counters *)

Lemma unique_In (s : list string) (x : string) : In x (unique s) <-> In x s.
Proof.
  induction s as [|y s IH]; simpl; [tauto |].
  rewrite filter_In, IH, negb_true_iff, String.eqb_neq.
  destruct (string_dec y x); split; intros; intuition congruence.
Qed.

Lemma unique_NoDup (s : list string) : NoDup (unique s).
Proof.
  induction s as [|y s IH]; simpl; constructor.
  - rewrite filter_In, negb_true_iff, String.eqb_neq. intros [_ H]. congruence.
  - apply NoDup_filter, IH.
Qed.

Lemma list_sum_perm (l l' : list nat) :
  Permutation l l' -> list_sum l = list_sum l'.
Proof. induction 1; simpl; lia. Qed.

Lemma length_filter_orb {R : Type} (p q : R -> bool) (l : list R) :
  (forall r, p r = true -> q r = true -> False) ->
  List.length (filter (fun r => p r || q r) l) =
  (List.length (filter p l) + List.length (filter q l))%nat.
Proof.
  intros Hex. induction l as [|r l IH]; simpl; [reflexivity |].
  specialize (Hex r).
  destruct (p r), (q r); simpl;
    solve [lia | exfalso; apply Hex; reflexivity].
Qed.

(** The counts of distinct labels add up to the number of rows that carry
    one of them. *)
Lemma count_rows_partition (s keys : list string) :
  NoDup keys ->
  list_sum (map (fun k => count_rows k s) keys) =
  List.length (filter (fun y => existsb (fun k => String.eqb k y) keys) s).
Proof.
  induction 1 as [|k keys Hk Hnd IH]; simpl.
  - induction s; simpl; auto.
  - rewrite IH. unfold count_rows. symmetry.
    apply (length_filter_orb (String.eqb k)
             (fun y => existsb (fun k' => String.eqb k' y) keys)).
    intros y H1 H2. apply String.eqb_eq in H1. subst y.
    apply existsb_exists in H2 as (k' & Hk' & E).
    apply String.eqb_eq in E. subst k'. contradiction.
Qed.

Lemma value_counts_perm (s : list string) :
  Permutation (value_counts s) (map (fun k => (k, count_rows k s)) (unique s)).
Proof. apply nargsort_descending_perm. Qed.

Lemma value_counts_total (s : list string) :
  list_sum (map snd (value_counts s)) = List.length s.
Proof.
  rewrite (list_sum_perm (Permutation_map snd (value_counts_perm s))).
  rewrite map_map. simpl.
  rewrite count_rows_partition by apply unique_NoDup.
  rewrite filter_all; [reflexivity |].
  intros y Hy. apply existsb_exists. exists y.
  split; [apply unique_In, Hy | apply String.eqb_refl].
Qed.

Lemma sort_index_perm {V : Type} (s : list (string * V)) :
  Permutation (sort_index s) s.
Proof. apply argsort_perm. Qed.

Lemma count_rows_map {R : Type} (f : R -> string) (k : string) (l : list R) :
  count_rows k (map f l) = List.length (filter (fun r => String.eqb k (f r)) l).
Proof.
  unfold count_rows. induction l as [|r l IH]; simpl; [reflexivity |].
  destruct (String.eqb k (f r)); simpl; rewrite IH; reflexivity.
Qed.

Section CounterFacts.
Context {A : Type} {N : Number A}.

(** C10: each categorical counter holds, for every label of its column,
    the number of rows carrying that label (rows, not distinct orders),
    each label once; the counts of a counter add up to the number of
    rows of the table. *)
Theorem categorical_counters_count_rows (df : Table A) :
  (list_sum (map snd (order_status_counts df)) = List.length df /\
   NoDup (map fst (order_status_counts df)) /\
   forall s n, In (s, n) (order_status_counts df) ->
     In s (map (@order_status A) df) /\
     n = List.length (filter (fun r => String.eqb s (order_status r)) df)) /\
  (list_sum (map snd (payment_type_counts df)) = List.length df /\
   NoDup (map fst (payment_type_counts df)) /\
   forall s n, In (s, n) (payment_type_counts df) ->
     In s (map (@payment_type A) df) /\
     n = List.length (filter (fun r => String.eqb s (payment_type r)) df)).
Proof.
  assert (Hgen : forall (col : OrderLine A -> string) (c : list (string * nat)),
    Permutation c (value_counts (map col df)) ->
    list_sum (map snd c) = List.length df /\
    NoDup (map fst c) /\
    forall s n, In (s, n) c ->
      In s (map col df) /\
      n = List.length (filter (fun r => String.eqb s (col r)) df)).
  { intros col c Hc.
    assert (Hc' := perm_trans Hc (value_counts_perm (map col df))).
    split; [| split].
    - rewrite (list_sum_perm (Permutation_map snd Hc)).
      rewrite value_counts_total. apply length_map.
    - eapply Permutation_NoDup; [symmetry; apply (Permutation_map fst Hc') |].
      rewrite map_map. simpl. rewrite map_id. apply unique_NoDup.
    - intros s n Hin. eapply Permutation_in in Hin; [| exact Hc'].
      apply in_map_iff in Hin as (k & [= -> <-] & Hk).
      rewrite unique_In in Hk. split; [exact Hk | apply count_rows_map]. }
  split; apply Hgen.
  - apply sort_index_perm.
  - apply Permutation_refl.
Qed.
End CounterFacts.

(** * The RFM table *)

Lemma mapM_pure {T U : Type} (f : T -> M U) (g : T -> U) (l : list T) (w : World) :
  (forall x, In x l -> f x w = Some (g x, w)) ->
  mapM f l w = Some (map g l, w).
Proof.
  induction l as [|x l IH]; intros Hf; simpl; [reflexivity |].
  unfold bind. rewrite (Hf x (or_introl eq_refl)).
  rewrite IH by (intros y Hy; apply Hf; right; exact Hy).
  reflexivity.
Qed.

Section RfmFacts.
Context {A : Type} {N : Number A}.

Lemma customer_groups_In (df : Table A) (g : string * Table A) :
  In g (customer_groups df) <->
  In (fst g) (map (@customer_unique_id A) df) /\ snd g = customer_rows (fst g) df.
Proof.
  unfold customer_groups, customer_rows.
  split.
  - intros Hg. apply groupby_In in Hg as [Hk Hg]. split; [| exact Hg].
    apply in_map_iff in Hk as (r & [= Hr] & Hin).
    apply in_map_iff. exists r. auto.
  - intros [Hk Hg]. apply groupby_In. split; [| exact Hg].
    apply in_map_iff in Hk as (r & Hr & Hin).
    apply in_map_iff. exists r. split; [congruence | exact Hin].
Qed.

Lemma customer_rows_In (c : string) (df : Table A) (r : OrderLine A) :
  In r (customer_rows c df) <-> In r df /\ customer_unique_id r = c.
Proof.
  unfold customer_rows. rewrite filter_In, String.eqb_eq.
  split; intros [? ?]; split; solve [assumption | congruence].
Qed.

(** [create_rfm_df] never raises; it returns one row per group and
    leaves the clock alone. *)
Lemma create_rfm_df_run (df : Table A) (w : World) :
  create_rfm_df df w =
  Some (map (rfm_entry df) (customer_groups df), after_tight_layout w).
Proof.
  unfold create_rfm_df. unfold bind at 1.
  fold (customer_groups df).
  rewrite mapM_pure with
    (g := fun c => {| Rfm.customer_id := RfmAgg.customer_id c;
                      Rfm.frequency := RfmAgg.frequency c;
                      Rfm.monetary := RfmAgg.monetary c;
                      Rfm.recency :=
                        days_of (series_max (map purchase_date df))
                          (option_map dt_date (RfmAgg.max_order_timestamp c)) |}).
  - rewrite map_map. reflexivity.
  - intros c Hc. apply in_map_iff in Hc as (g & <- & Hg). simpl.
    assert (Hne : snd g <> []) by (eapply groupby_nonempty; exact Hg).
    destruct (series_max_nonempty
                (s := map (@order_purchase_timestamp A) (snd g))) as [m Hm].
    { destruct (snd g); [congruence | discriminate]. }
    destruct (series_max_nonempty (s := map purchase_date df)) as [d Hd].
    { apply customer_groups_In in Hg as [_ Hg]. rewrite Hg in Hne.
      destruct df; [exfalso; apply Hne; reflexivity | discriminate]. }
    rewrite Hm, Hd. reflexivity.
Qed.


(** The recency of a group: reference day minus the group's last day. *)
Lemma rfm_entry_recency (df : Table A) (g : string * Table A) (recent : Z) :
  In g (customer_groups df) ->
  is_max recent (map purchase_date df) ->
  exists last,
    is_max last (map purchase_date (customer_rows (fst g) df)) /\
    Rfm.recency (rfm_entry df g) = recent - last.
Proof.
  intros Hg Hrecent.
  assert (Hne : snd g <> []) by (eapply groupby_nonempty; exact Hg).
  apply customer_groups_In in Hg as [_ Hg].
  destruct (series_max_nonempty
              (s := map (@order_purchase_timestamp A) (snd g))) as [m Hm].
  { destruct (snd g); [congruence | discriminate]. }
  exists (dt_date m). split.
  - apply series_max_spec, is_max_dt_date in Hm.
    rewrite map_map, Hg in Hm. exact Hm.
  - unfold rfm_entry. simpl.
    rewrite Hm, (series_max_complete Hrecent). reflexivity.
Qed.
End RfmFacts.

Section RfmTheorems.
Context {A : Type} {N : Number A}.


(** C5: the frequency [create_rfm_df] reports for a customer is the
    number of distinct order_id values among the customer's rows, which
    is at most the number of those rows. *)
Theorem create_rfm_df_frequency (df : Table A) (w : World) (c : string) :
  In c (map (@customer_unique_id A) df) ->
  exists (out : list (Rfm.row A)) (w' : World) (row : Rfm.row A),
    create_rfm_df df w = Some (out, w') /\
    In row out /\ Rfm.customer_id row = c /\
    (forall row', In row' out -> Rfm.customer_id row' = c -> row' = row) /\
    (forall orders, NoDup orders ->
       (forall o, In o orders <->
                  exists r, In r df /\ customer_unique_id r = c /\ order_id r = o) ->
       Rfm.frequency row = List.length orders) /\
    (Rfm.frequency row <= List.length (customer_rows c df))%nat.
Proof.
  intros Hc.
  exists (map (rfm_entry df) (customer_groups df)), (after_tight_layout w),
         (rfm_entry df (c, customer_rows c df)).
  split; [apply create_rfm_df_run |].
  split; [| split; [reflexivity | split; [| split]]].
  - apply in_map, customer_groups_In. split; [exact Hc | reflexivity].
  - intros row' Hin Hid. apply in_map_iff in Hin as (g & <- & Hg).
    apply customer_groups_In in Hg as [_ Hg]. simpl in Hid.
    destruct g as [k rows]; simpl in *. subst. reflexivity.
  - intros orders Hnd Hin. simpl. apply nunique_card; [exact Hnd |].
    intros o. rewrite Hin, in_map_iff. split.
    + intros (r & Hr & Hcr & Ho). exists r. split; [exact Ho |].
      apply customer_rows_In. split; assumption.
    + intros (r & Ho & Hr). apply customer_rows_In in Hr as [Hr Hcr].
      exists r. auto.
  - simpl. rewrite <- (length_map (@order_id A)). apply nunique_le_length.
Qed.

End RfmTheorems.

(** * The two charts *)

Section ChartFacts.
Context {A : Type} {N : Number A}.

(** What [plot_order_status_distribution] returns, whatever the ambient
    state: it raises on a table without rows and charts the counter
    otherwise. *)
Lemma plot_order_status_distribution_run (df : Table A) (w : World) :
  result (plot_order_status_distribution df w) =
  match order_status_counts df with
  | [] => None
  | _ :: _ =>
      Some (BarChart "Distribution of Order Status" (order_status_counts df)
              (combine (seq 0 (List.length (order_status_counts df)))
                       (map snd (order_status_counts df))))
  end.
Proof.
  unfold plot_order_status_distribution.
  destruct (order_status_counts df); reflexivity.
Qed.

Lemma plot_payment_type_distribution_run (df : Table A) (w : World) :
  result (plot_payment_type_distribution df w) =
  match payment_type_counts df with
  | [] => None
  | _ :: _ =>
      let total := float_of_nat (list_sum (map snd (payment_type_counts df))) in
      Some (PieChart "Payment Method"
              (combine (map fst (payment_type_counts df))
                 (map (fun c => (float_of_nat (snd c) / total * 100)%float)
                      (payment_type_counts df))))
  end.
Proof.
  unfold plot_payment_type_distribution.
  destruct (payment_type_counts df); reflexivity.
Qed.
End ChartFacts.

(** * An empty selection *)

Section EmptySelection.
Context {A : Type} {N : Number A}.

(** C7 (amended): when the date range selects no row, the daily rollup,
    the freight rollup and the by-state rollup are empty tables and
    [create_rfm_df] returns, without raising, an empty table; the two
    categorical counters are empty as well, and the functions that
    compute them, [plot_order_status_distribution] and
    [plot_payment_type_distribution], raise when they chart the empty
    counter. *)
Theorem aggregators_on_empty_selection
    (df : Table A) (start_date end_date : Z) (w : World) :
  date_filter start_date end_date df = [] ->
  let main := date_filter start_date end_date df in
  create_daily_orders_df main = [] /\
  create_sum_freight_items_df main = [] /\
  create_bystate_df main = [] /\
  (exists w', create_rfm_df main w = Some ([], w')) /\
  order_status_counts main = [] /\
  payment_type_counts main = [] /\
  plot_order_status_distribution main w = None /\
  plot_payment_type_distribution main w = None.
Proof.
  intros Hempty main. subst main. rewrite Hempty.
  repeat split. eexists. reflexivity.
Qed.
End EmptySelection.

(** The greeting of lines 11-18 depends on the clock. *)
Lemma greeting_reads_clock :
  result (greeting {| clock_hour := 9; open_figures := 0 |})
  <> result (greeting {| clock_hour := 20; open_figures := 0 |}).
Proof. vm_compute. discriminate. Qed.

(** * Two runs *)

Section Determinism.
Context {A : Type} {N : Number A}.

(** C9: the three aggregators that touch the ambient state (clock
    reading, open figures) return a result that does not depend on it:
    [create_rfm_df], run twice in a row from any state, succeeds both
    times with the same table, although its [plt.tight_layout()] changes
    the state between the runs, and from any two states it and the two
    plot functions return the same result; the table [create_rfm_df]
    returns has a row for every customer, and the reference date of every
    recency in it is the latest purchase date of the table.  (The three
    rollups call nothing but pandas on their argument and are functions
    of the table alone.) *)
Theorem aggregators_two_run_deterministic (df : Table A) (w1 w2 : World) :
  deterministic (create_rfm_df df) /\
  result (create_rfm_df df w1) = result (create_rfm_df df w2) /\
  result (plot_order_status_distribution df w1)
    = result (plot_order_status_distribution df w2) /\
  result (plot_payment_type_distribution df w1)
    = result (plot_payment_type_distribution df w2) /\
  (exists out w',
     create_rfm_df df w1 = Some (out, w') /\
     (forall c, In c (map (@customer_unique_id A) df) ->
        exists row, In row out /\ Rfm.customer_id row = c) /\
     (forall row, In row out ->
        exists recent last,
          is_max recent (map purchase_date df) /\
          is_max last (map purchase_date (customer_rows (Rfm.customer_id row) df)) /\
          Rfm.recency row = recent - last)).
Proof.
  split; [| split; [| split; [| split]]].
  - exists (map (rfm_entry df) (customer_groups df)). intros w.
    unfold twice, bind. rewrite !create_rfm_df_run. eexists. reflexivity.
  - rewrite !create_rfm_df_run. reflexivity.
  - rewrite !plot_order_status_distribution_run. reflexivity.
  - rewrite !plot_payment_type_distribution_run. reflexivity.
  - exists (map (rfm_entry df) (customer_groups df)), (after_tight_layout w1).
    split; [apply create_rfm_df_run |]. split.
    + intros c Hc. exists (rfm_entry df (c, customer_rows c df)).
      split; [| reflexivity].
      apply in_map, customer_groups_In. split; [exact Hc | reflexivity].
    + intros row Hrow. apply in_map_iff in Hrow as (g & <- & Hg).
      assert (Hne : snd g <> []) by (eapply groupby_nonempty; exact Hg).
      destruct (series_max_nonempty (s := map purchase_date df)) as [d Hd].
      { apply customer_groups_In in Hg as [_ Hgr]. rewrite Hgr in Hne.
        destruct df; [exfalso; apply Hne; reflexivity | discriminate]. }
      apply series_max_spec in Hd.
      destruct (rfm_entry_recency df g Hg Hd) as (last & Hlast & E).
      exists d, last. split; [exact Hd |]. split; [exact Hlast | exact E].
Qed.
End Determinism.

(** * The theorems at the sample tables *)

(** C1, counterexample: the table has orders on days 1, 3 and 5; the
    range of days 2 to 4 lies between its first and its last day and
    selects the single order of day 3, and the rollup has one entry, not
    three. *)
Lemma daily_rollup_not_filter_range :
  min_date three_days = Some 1 /\
  max_date three_days = Some 5 /\
  (1 <= 2 /\ 2 <= 4 /\ 4 <= 5) /\
  map (@order_id Z) (date_filter 2 4 three_days) = ["o2"] /\
  List.length (create_daily_orders_df (date_filter 2 4 three_days)) = 1%nat /\
  ~ one_entry_per_filter_day three_days 2 4.
Proof.
  split; [reflexivity |]. split; [reflexivity |]. split; [lia |].
  split; [reflexivity |]. split; [reflexivity |].
  unfold one_entry_per_filter_day. vm_compute. discriminate.
Qed.

(** C7, counterexample: day 4 lies between the first and the last day
    of [three_days] and has no order; on that selection both plot
    functions raise, and neither returns a figure. *)
Lemma plots_raise_on_empty_selection :
  min_date three_days = Some 1 /\
  max_date three_days = Some 5 /\
  (1 <= 4 /\ 4 <= 4 /\ 4 <= 5) /\
  date_filter 4 4 three_days = [] /\
  plot_order_status_distribution (date_filter 4 4 three_days) w0 = None /\
  plot_payment_type_distribution (date_filter 4 4 three_days) w0 = None /\
  ~ (exists fig w',
       plot_order_status_distribution (date_filter 4 4 three_days) w0
       = Some (fig, w')) /\
  ~ (exists fig w',
       plot_payment_type_distribution (date_filter 4 4 three_days) w0
       = Some (fig, w')).
Proof.
  split; [reflexivity |]. split; [reflexivity |]. split; [lia |].
  split; [reflexivity |]. split; [reflexivity |]. split; [reflexivity |].
  split; intros (fig & w' & H); discriminate H.
Qed.


(** C4, counterexample: in float64 the rollup adds up to
    0.1 + (0.2 + 0.3) = 0.6 and the rows to (0.1 + 0.2) + 0.3 =
    0.6000000000000001. *)
Lemma revenue_conservation_fails_in_float64 :
  rollup_revenue float_main = 0x1.3333333333333p-1%float /\
  rows_revenue float_main = 0x1.3333333333334p-1%float /\
  PrimFloat.eqb (rollup_revenue float_main) (rows_revenue float_main) = false /\
  rollup_revenue float_main <> rows_revenue float_main.
Proof.
  repeat split; try (vm_compute; reflexivity).
  vm_compute. intros H. discriminate H.
Qed.

(** C6, counterexample: the only row has no customer_state, and the
    rollup has no group for it. *)
Lemma missing_state_is_dropped :
  In None (map (@customer_state Z) missing_state) /\
  create_bystate_df missing_state = [] /\
  ~ every_state_has_group missing_state.
Proof.
  split; [left; reflexivity |]. split; [reflexivity |].
  intros H. apply (H None). left; reflexivity.
Qed.

(** The rollup of [gap_orders]: three days, the middle one empty. *)
Example gap_orders_daily :
  create_daily_orders_df gap_orders =
  [ {| DailyOrders.order_purchase_timestamp := midnight 17532;
       DailyOrders.order_count := 1; DailyOrders.revenue := 8500 |};
    {| DailyOrders.order_purchase_timestamp := midnight 17533;
       DailyOrders.order_count := 0; DailyOrders.revenue := 0 |};
    {| DailyOrders.order_purchase_timestamp := midnight 17534;
       DailyOrders.order_count := 1; DailyOrders.revenue := 3700 |} ].
Proof. vm_compute. reflexivity. Qed.

(** The RFM row of customer C1 in [two_orders]. *)
Example two_orders_rfm :
  result (create_rfm_df two_orders w0) =
  Some [ {| Rfm.customer_id := "C1"; Rfm.frequency := 2;
            Rfm.monetary := 8000; Rfm.recency := 0 |} ].
Proof. vm_compute. reflexivity. Qed.

(** The daily rollup theorem at [gap_orders]: three days, three entries. *)
Lemma create_daily_orders_df_zero_fill_witness :
  is_min (noon 17532) (map (@order_purchase_timestamp Z) gap_orders) /\
  is_max (noon 17534) (map (@order_purchase_timestamp Z) gap_orders) /\
  List.length (create_daily_orders_df gap_orders) = 3%nat.
Proof.
  assert (Hmin : is_min (noon 17532) (map (@order_purchase_timestamp Z) gap_orders)).
  { apply series_min_spec. reflexivity. }
  assert (Hmax : is_max (noon 17534) (map (@order_purchase_timestamp Z) gap_orders)).
  { apply series_max_spec. reflexivity. }
  split; [exact Hmin |]. split; [exact Hmax |].
  destruct (create_daily_orders_df_zero_fill gap_orders Hmin Hmax) as (_ & Hlen & _).
  rewrite Hlen. reflexivity.
Defined.

(** Revenue conservation at [gap_orders], in cents. *)
Lemma revenue_conservation_exact_witness :
  ExactSum cents /\
  rollup_revenue (date_filter 17532 17534 (assign_total_price gap_orders)) =
  rows_revenue (date_filter 17532 17534 (assign_total_price gap_orders)).
Proof.
  split; [exact cents_exact |].
  exact (proj1 (revenue_conservation_exact (E := cents_exact) gap_orders 17532 17534)).
Defined.



(** The frequency theorem at [gap_orders]: customer u1 has two rows of
    one order. *)
Lemma create_rfm_df_frequency_witness :
  In "u1" (map (@customer_unique_id Z) gap_orders) /\
  List.length (customer_rows "u1" gap_orders) = 2%nat /\
  exists (out : list (Rfm.row Z)) (w' : World) (row : Rfm.row Z),
    create_rfm_df gap_orders w0 = Some (out, w') /\
    In row out /\ Rfm.customer_id row = "u1" /\ Rfm.frequency row = 1%nat.
Proof.
  assert (Hin : In "u1" (map (@customer_unique_id Z) gap_orders))
    by (left; reflexivity).
  split; [exact Hin |]. split; [reflexivity |].
  destruct (create_rfm_df_frequency gap_orders w0 "u1" Hin)
    as (out & w' & row & Hrun & Hrow & Hid & _ & Hfreq & _).
  exists out, w', row. repeat split; try assumption.
  apply (Hfreq ["o1"]).
  - constructor; [intros [] | constructor].
  - intros o. split.
    + intros [<-|[]]. eexists. split; [left; reflexivity |]. split; reflexivity.
    + intros (r & [<-|[<-|[<-|[]]]] & Hc & Ho); simpl in *;
        solve [left; exact Ho | discriminate Hc].
Defined.

(** The empty selection theorem at [three_days]: day 2 lies between the
    first and the last day of the table and has no order. *)
Lemma aggregators_on_empty_selection_witness :
  min_date three_days = Some 1 /\
  max_date three_days = Some 5 /\
  (1 <= 2 /\ 2 <= 2 /\ 2 <= 5) /\
  date_filter 2 2 three_days = [] /\
  create_daily_orders_df (date_filter 2 2 three_days) = [] /\
  create_sum_freight_items_df (date_filter 2 2 three_days) = [] /\
  create_bystate_df (date_filter 2 2 three_days) = [] /\
  (exists w', create_rfm_df (date_filter 2 2 three_days) w0 = Some ([], w')) /\
  order_status_counts (date_filter 2 2 three_days) = [] /\
  payment_type_counts (date_filter 2 2 three_days) = [] /\
  plot_order_status_distribution (date_filter 2 2 three_days) w0 = None /\
  plot_payment_type_distribution (date_filter 2 2 three_days) w0 = None.
Proof.
  assert (Hempty : date_filter 2 2 three_days = []) by reflexivity.
  split; [reflexivity |]. split; [reflexivity |]. split; [lia |].
  split; [exact Hempty |].
  exact (aggregators_on_empty_selection three_days 2 2 w0 Hempty).
Defined.

(** * Further properties of the script *)

(** * The date filter and the script's bounds *)

Section FilterLaws.
Context {A : Type} {N : Number A}.

(** The selection by the default bounds of the date input, the first and
    the last purchase day of the table (lines 110-123), is the whole
    table. *)
Theorem default_range_selects_all (df : Table A) (lo hi : Z) :
  min_date df = Some lo -> max_date df = Some hi ->
  date_filter lo hi df = df.
Proof.
  unfold min_date, max_date. intros Hlo Hhi.
  destruct (series_min (map (@order_purchase_timestamp A) df)) as [first|] eqn:Hmin;
    [| discriminate].
  destruct (series_max (map (@order_purchase_timestamp A) df)) as [last|] eqn:Hmax;
    [| discriminate].
  injection Hlo as <-. injection Hhi as <-.
  apply series_min_spec in Hmin as [_ Hmin].
  apply series_max_spec in Hmax as [_ Hmax].
  rewrite date_filter_eq. apply filter_all.
  intros r Hr.
  assert (Hin : In (order_purchase_timestamp r) (map (@order_purchase_timestamp A) df))
    by (apply in_map, Hr).
  apply andb_true_iff. unfold purchase_date.
  split; apply Z.leb_le, dt_date_mono; auto.
Qed.

(** Bounds given in the wrong order are not refused: the selection is
    empty. *)
Theorem inverted_range_selects_nothing (df : Table A) (start_date end_date : Z) :
  end_date < start_date -> date_filter start_date end_date df = [].
Proof.
  intros Hlt. rewrite date_filter_eq.
  induction df as [|r df IH]; simpl; [reflexivity |].
  destruct (Z.leb_spec start_date (purchase_date r));
    destruct (Z.leb_spec (purchase_date r) end_date); simpl; try exact IH; lia.
Qed.

(** Selecting twice is selecting once with the intersection of the two
    ranges; in particular selecting again with the same bounds changes
    nothing. *)
Theorem date_filter_narrows (df : Table A) (s1 e1 s2 e2 : Z) :
  date_filter s2 e2 (date_filter s1 e1 df) = date_filter (Z.max s1 s2) (Z.min e1 e2) df /\
  date_filter s1 e1 (date_filter s1 e1 df) = date_filter s1 e1 df.
Proof.
  assert (H : forall a b c d,
             date_filter c d (date_filter a b df) = date_filter (Z.max a c) (Z.min b d) df).
  { intros a b c d. rewrite !date_filter_eq.
    induction df as [|r df IH]; simpl; [reflexivity |].
    destruct (Z.leb_spec a (purchase_date r)), (Z.leb_spec (purchase_date r) b),
             (Z.leb_spec (Z.max a c) (purchase_date r)),
             (Z.leb_spec (purchase_date r) (Z.min b d)); simpl;
      try (destruct (Z.leb_spec c (purchase_date r)), (Z.leb_spec (purchase_date r) d); simpl);
      try rewrite IH; try reflexivity; lia. }
  split; [apply H |].
  rewrite H, Z.max_id, Z.min_id. reflexivity.
Qed.

(** Line 108 and the selection commute: computing [total_price] before
    or after the date filter gives the same table; line 108 keeps the
    number of rows, and running it again changes nothing. *)
Theorem assign_total_price_commutes (df : Table A) (start_date end_date : Z) :
  date_filter start_date end_date (assign_total_price df)
  = assign_total_price (date_filter start_date end_date df) /\
  assign_total_price (assign_total_price df) = assign_total_price df /\
  List.length (assign_total_price df) = List.length df.
Proof.
  split; [| split].
  - rewrite !date_filter_eq. unfold assign_total_price.
    induction df as [|r df IH]; simpl; [reflexivity |].
    unfold purchase_date at 1 2. simpl. fold (purchase_date r).
    destruct ((start_date <=? purchase_date r) && (purchase_date r <=? end_date));
      simpl; rewrite IH; reflexivity.
  - unfold assign_total_price. rewrite map_map. reflexivity.
  - apply length_map.
Qed.
End FilterLaws.

(** * Counting distinct identifiers group by group *)

Lemma nunique_zero (s : list string) : nunique s = 0%nat <-> s = [].
Proof.
  split; [| intros ->; reflexivity].
  destruct s as [|x s]; [reflexivity |]. intros H. exfalso.
  assert (Hin : In x (nodup string_dec (x :: s))) by (apply nodup_In; left; reflexivity).
  unfold nunique in H. destruct (nodup string_dec (x :: s)); [exact Hin | discriminate].
Qed.

Lemma NoDup_concat_disjoint {T : Type} (ls : list (list T)) :
  Forall (@NoDup T) ls ->
  ForallOrdPairs (fun a b => forall x, In x a -> In x b -> False) ls ->
  NoDup (List.concat ls).
Proof.
  intros Hnd Hdis. induction Hdis as [|a ls Ha Hdis IH]; simpl; [constructor |].
  inversion Hnd as [|a' ls' Hna Hnls]; subst.
  apply NoDup_app; [exact Hna | apply IH, Hnls |].
  intros x Hxa Hxc. apply in_concat in Hxc as (b & Hb & Hxb).
  rewrite Forall_forall in Ha. exact (Ha b Hb x Hxa Hxb).
Qed.

Lemma ForallOrdPairs_map {T U : Type} (R : U -> U -> Prop) (f : T -> U) (l : list T) :
  NoDup l ->
  (forall a b, In a l -> In b l -> a <> b -> R (f a) (f b)) ->
  ForallOrdPairs R (map f l).
Proof.
  induction 1 as [|a l Ha Hnd IH]; intros HR; simpl; constructor.
  - apply Forall_forall. intros u Hu. apply in_map_iff in Hu as (b & <- & Hb).
    apply HR; [left; reflexivity | right; exact Hb |].
    intros ->. contradiction.
  - apply IH. intros a' b Ha' Hb. apply HR; right; assumption.
Qed.

Section GroupedCounts.
Variables (R K : Type) (id : R -> string) (p : K -> R -> bool).

Lemma length_filter_partition (ks : list K) (l : list R) :
  NoDup ks -> groups_exclusive p ks ->
  list_sum (map (fun k => List.length (filter (p k) l)) ks) =
  List.length (filter (fun r => existsb (fun k => p k r) ks) l).
Proof.
  induction 1 as [|k ks' Hk Hnd IH]; intros Hex; simpl.
  - rewrite filter_none. reflexivity.
  - rewrite IH.
    + symmetry. apply (length_filter_orb (p k) (fun r => existsb (fun k' => p k' r) ks')).
      intros r Ep Ee. apply existsb_exists in Ee as (k' & Hk' & Ek').
      apply Hk. rewrite (Hex r k k' (or_introl eq_refl) (or_intror Hk') Ep Ek').
      exact Hk'.
    + intros r k0 k0' Hk0 Hk0'. apply Hex; right; assumption.
Qed.

Lemma grouped_nunique_le_rows (ks : list K) (l : list R) :
  NoDup ks -> groups_exclusive p ks ->
  (grouped_nunique id p ks l <= List.length l)%nat.
Proof.
  intros Hnd Hex. unfold grouped_nunique.
  apply Nat.le_trans with
    (list_sum (map (fun k => List.length (filter (p k) l)) ks)).
  - clear. induction ks as [|k ks' IH]; simpl; [lia |].
    pose proof (nunique_le_length (map id (filter (p k) l))) as H.
    rewrite length_map in H. lia.
  - rewrite length_filter_partition by assumption. apply filter_length_le.
Qed.

Lemma grouped_nunique_concat (ks : list K) (l : list R) :
  grouped_nunique id p ks l =
  List.length (List.concat
                 (map (fun k => nodup string_dec (map id (filter (p k) l))) ks)).
Proof.
  unfold grouped_nunique, nunique. rewrite length_concat, map_map. reflexivity.
Qed.

Lemma grouped_nunique_ge_distinct (ks : list K) (l : list R) :
  groups_cover p ks l -> (nunique (map id l) <= grouped_nunique id p ks l)%nat.
Proof.
  intros Hcov. rewrite grouped_nunique_concat. unfold nunique.
  apply NoDup_incl_length; [apply NoDup_nodup |].
  intros x Hx. apply nodup_In, in_map_iff in Hx as (r & <- & Hr).
  destruct (Hcov r Hr) as (k & Hk & Ek).
  apply in_concat. exists (nodup string_dec (map id (filter (p k) l))). split.
  - apply in_map_iff. exists k. auto.
  - apply nodup_In, in_map, filter_In. auto.
Qed.

Lemma grouped_nunique_eq_distinct (ks : list K) (l : list R) :
  NoDup ks -> groups_cover p ks l ->
  (forall r r' k k', In r l -> In r' l -> In k ks -> In k' ks ->
                     id r = id r' -> p k r = true -> p k' r' = true -> k = k') ->
  grouped_nunique id p ks l = nunique (map id l).
Proof.
  intros Hnd Hcov Hdet. rewrite grouped_nunique_concat. unfold nunique.
  apply Permutation_length, NoDup_Permutation.
  - apply NoDup_concat_disjoint.
    + apply Forall_forall. intros s Hs. apply in_map_iff in Hs as (k & <- & _).
      apply NoDup_nodup.
    + apply ForallOrdPairs_map; [exact Hnd |].
      intros k k' Hk Hk' Hne x Hx Hx'.
      apply nodup_In, in_map_iff in Hx as (r & <- & Hr).
      apply nodup_In, in_map_iff in Hx' as (r' & E & Hr').
      apply filter_In in Hr as [Hr Ep]. apply filter_In in Hr' as [Hr' Ep'].
      apply Hne. symmetry in E.
      exact (Hdet r r' k k' Hr Hr' Hk Hk' E Ep Ep').
  - apply NoDup_nodup.
  - intros x. split.
    + intros Hx. apply in_concat in Hx as (s & Hs & Hx).
      apply in_map_iff in Hs as (k & <- & _).
      apply nodup_In, in_map_iff in Hx as (r & <- & Hr).
      apply filter_In in Hr as [Hr _]. apply nodup_In, in_map, Hr.
    + intros Hx. apply nodup_In, in_map_iff in Hx as (r & <- & Hr).
      destruct (Hcov r Hr) as (k & Hk & Ek).
      apply in_concat. exists (nodup string_dec (map id (filter (p k) l))). split.
      * apply in_map_iff. exists k. auto.
      * apply nodup_In, in_map, filter_In. auto.
Qed.
End GroupedCounts.

(** * More on the daily rollup *)

Section DailyMore.
Context {A : Type} {N : Number A}.

Lemma table_days (df : Table A) (first last : Z) :
  series_min (map (@order_purchase_timestamp A) df) = Some first ->
  series_max (map (@order_purchase_timestamp A) df) = Some last ->
  forall r, In r df -> In (purchase_date r) (date_range (dt_date first) (dt_date last)).
Proof.
  intros Hmin Hmax r Hr. apply date_range_In.
  apply series_min_spec in Hmin as [_ Hlo].
  apply series_max_spec in Hmax as [_ Hhi].
  assert (Hin : In (order_purchase_timestamp r) (map (@order_purchase_timestamp A) df))
    by (apply in_map, Hr).
  unfold purchase_date. split; apply dt_date_mono; auto.
Qed.

Lemma total_orders_grouped (df : Table A) (first last : Z) :
  series_min (map (@order_purchase_timestamp A) df) = Some first ->
  series_max (map (@order_purchase_timestamp A) df) = Some last ->
  total_orders (create_daily_orders_df df) =
  grouped_nunique (@order_id A) on_day (date_range (dt_date first) (dt_date last)) df.
Proof.
  intros Hmin Hmax. unfold total_orders, grouped_nunique.
  rewrite (create_daily_orders_df_bins df Hmin Hmax), map_map. reflexivity.
Qed.

Lemma on_day_exclusive (days : list Z) : groups_exclusive (@on_day A) days.
Proof.
  intros r d d' _ _ H H'. unfold on_day in *.
  apply Z.eqb_eq in H, H'. congruence.
Qed.

Lemma on_day_cover (df : Table A) (first last : Z) :
  series_min (map (@order_purchase_timestamp A) df) = Some first ->
  series_max (map (@order_purchase_timestamp A) df) = Some last ->
  groups_cover on_day (date_range (dt_date first) (dt_date last)) df.
Proof.
  intros Hmin Hmax r Hr. exists (purchase_date r).
  split; [eapply table_days; eassumption | apply Z.eqb_refl].
Qed.

Lemma empty_or_bounds (df : Table A) :
  df = [] \/
  exists first last,
    series_min (map (@order_purchase_timestamp A) df) = Some first /\
    series_max (map (@order_purchase_timestamp A) df) = Some last /\
    In first (map (@order_purchase_timestamp A) df) /\
    In last (map (@order_purchase_timestamp A) df).
Proof.
  destruct df as [|r df]; [left; reflexivity | right].
  destruct (series_min (map (@order_purchase_timestamp A) (r :: df))) as [first|] eqn:Hmin;
    [| discriminate].
  destruct (series_max (map (@order_purchase_timestamp A) (r :: df))) as [last|] eqn:Hmax;
    [| discriminate].
  exists first, last. repeat split.
  - apply series_min_spec in Hmin as [H _]. exact H.
  - apply series_max_spec in Hmax as [H _]. exact H.
Qed.

(** The rollup of a date selection stays inside the selected range: every
    entry's day lies between [start_date] and [end_date], and there are at
    most as many entries as days in the range. *)
Theorem daily_rollup_within_filter_range (df : Table A) (start_date end_date : Z) :
  let daily := create_daily_orders_df (date_filter start_date end_date df) in
  (forall e, In e daily ->
     start_date <= dt_date (DailyOrders.order_purchase_timestamp e) <= end_date) /\
  (List.length daily <= Z.to_nat (end_date - start_date + 1))%nat.
Proof.
  intros daily. subst daily.
  set (main := date_filter start_date end_date df).
  destruct (empty_or_bounds main) as [E | (first & last & Hmin & Hmax & Hf & Hl)].
  - rewrite E. split; [intros e [] | simpl; lia].
  - apply in_map_iff in Hf as (rf & Ef & Hrf).
    apply in_map_iff in Hl as (rl & El & Hrl).
    apply date_filter_In in Hrf as [_ Hrf]. apply date_filter_In in Hrl as [_ Hrl].
    unfold in_range, purchase_date in Hrf, Hrl. rewrite Ef in Hrf. rewrite El in Hrl.
    assert (Hfl : dt_date first <= dt_date last).
    { apply dt_date_mono. apply series_max_spec in Hmax as [_ Hmax]. apply Hmax.
      apply series_min_spec in Hmin as [Hmin _]. exact Hmin. }
    rewrite (create_daily_orders_df_bins main Hmin Hmax). split.
    + intros e He. apply in_map_iff in He as (d & <- & Hd). simpl.
      rewrite dt_date_midnight. apply date_range_In in Hd. lia.
    + rewrite length_map, date_range_length. lia.
Qed.

(** An entry of the rollup counts no order exactly when no row of the
    table falls on its day, and never more orders than rows of that day. *)
Theorem daily_count_zero_iff_no_rows (df : Table A) (e : DailyOrders.row A) :
  In e (create_daily_orders_df df) ->
  let d := dt_date (DailyOrders.order_purchase_timestamp e) in
  (DailyOrders.order_count e = 0%nat <-> forall r, In r df -> purchase_date r <> d) /\
  (DailyOrders.order_count e <= List.length (day_rows d df))%nat.
Proof.
  intros He d. subst d.
  destruct (empty_or_bounds df) as [E | (first & last & Hmin & Hmax & _)].
  - rewrite E in He. destruct He.
  - rewrite (create_daily_orders_df_bins df Hmin Hmax) in He.
    apply in_map_iff in He as (d & <- & _). simpl. rewrite dt_date_midnight.
    split.
    + rewrite nunique_zero. split.
      * intros E r Hr Hd. apply map_eq_nil in E.
        assert (Hin : In r (day_rows d df)).
        { apply filter_In. split; [exact Hr | apply Z.eqb_eq, Hd]. }
        rewrite E in Hin. exact Hin.
      * intros H. rewrite (day_rows_empty _ H). reflexivity.
    + rewrite <- (length_map (@order_id A)). apply nunique_le_length.
Qed.

(** The "Total orders" metric of line 136 lies between the number of
    distinct order_id values of the table and its number of rows. *)
Theorem total_orders_bounds (df : Table A) :
  (nunique (map (@order_id A) df) <= total_orders (create_daily_orders_df df))%nat /\
  (total_orders (create_daily_orders_df df) <= List.length df)%nat.
Proof.
  destruct (empty_or_bounds df) as [E | (first & last & Hmin & Hmax & _)].
  - rewrite E. split; apply Nat.le_refl.
  - rewrite (total_orders_grouped df Hmin Hmax). split.
    + apply grouped_nunique_ge_distinct. eapply on_day_cover; eassumption.
    + apply grouped_nunique_le_rows.
      * apply StronglySorted_lt_NoDup, date_range_sorted.
      * apply on_day_exclusive.
Qed.

(** When all rows of an order carry the same purchase day, the "Total
    orders" metric is the number of distinct order_id values. *)
Theorem total_orders_distinct (df : Table A) :
  (forall r r', In r df -> In r' df -> order_id r = order_id r' ->
                purchase_date r = purchase_date r') ->
  total_orders (create_daily_orders_df df) = nunique (map (@order_id A) df).
Proof.
  intros Hday.
  destruct (empty_or_bounds df) as [E | (first & last & Hmin & Hmax & _)].
  - rewrite E. reflexivity.
  - rewrite (total_orders_grouped df Hmin Hmax).
    apply grouped_nunique_eq_distinct.
    + apply StronglySorted_lt_NoDup, date_range_sorted.
    + eapply on_day_cover; eassumption.
    + intros r r' d d' Hr Hr' _ _ E Hd Hd'. unfold on_day in *.
      apply Z.eqb_eq in Hd, Hd'. rewrite <- Hd, <- Hd'. apply Hday; assumption.
Qed.
End DailyMore.

(** * The order of the group tables *)

Lemma string_leb_refl (a : string) : String.leb a a = true.
Proof. destruct (String.leb_total a a); assumption. Qed.

Lemma string_leb_trans (a b c : string) :
  String.leb a b = true -> String.leb b c = true -> String.leb a c = true.
Proof.
  unfold String.leb. revert b c.
  induction a as [|x a IH]; intros [|y b] [|z c]; simpl; try reflexivity; try discriminate.
  unfold Ascii.compare.
  destruct (N.compare_spec (N_of_ascii x) (N_of_ascii y)) as [Exy|Lxy|Gxy];
    destruct (N.compare_spec (N_of_ascii y) (N_of_ascii z)) as [Eyz|Lyz|Gyz];
    destruct (N.compare_spec (N_of_ascii x) (N_of_ascii z)) as [Exz|Lxz|Gxz];
    try discriminate; try reflexivity; try lia; try (intros; exfalso; lia).
  apply IH.
Qed.

Lemma argsort_string_sorted {T : Type} (key : T -> string) (l : list T) :
  StronglySorted (fun x y => String.leb (key x) (key y) = true)
    (argsort (fun x y => String.leb (key x) (key y)) l).
Proof.
  apply argsort_sorted.
  - intros x y _ _. apply String.leb_total.
  - intros x y z. apply string_leb_trans.
  - apply Forall_forall. intros x _. apply string_leb_refl.
Qed.

Lemma sorted_keys_sorted (s : list string) :
  StronglySorted (fun x y => String.leb x y = true) (sorted_keys s).
Proof. apply (argsort_string_sorted (fun k => k)). Qed.


Section GroupOrder.
Context {A : Type} {N : Number A}.


(** [create_bystate_df] lists the states in ascending order of state
    code, each with at least one customer. *)
Theorem create_bystate_df_ascending (df : Table A) :
  StronglySorted (fun s t => String.leb s t = true)
    (dropna (map ByState.customer_state (create_bystate_df df))) /\
  forall e, In e (create_bystate_df df) -> (1 <= ByState.customer_count e)%nat.
Proof.
  unfold create_bystate_df. split.
  - rewrite map_map. simpl.
    replace (dropna (map (fun g : string * Table A => Some (fst g))
                       (groupby (@customer_state A) df)))
      with (map fst (groupby (@customer_state A) df)).
    + rewrite groupby_keys. apply sorted_keys_sorted.
    + induction (groupby (@customer_state A) df) as [|g gs IH]; simpl;
        [reflexivity | now rewrite IH].
  - intros e He. apply in_map_iff in He as (g & <- & Hg). simpl.
    pose proof (groupby_nonempty _ _ _ Hg) as Hne.
    destruct (nunique (map (@customer_id A) (snd g))) eqn:E; [| lia].
    apply nunique_zero, map_eq_nil in E. contradiction.
Qed.
End GroupOrder.

(** * The rollups do not depend on the order of the rows *)

Lemma filter_perm {T : Type} (p : T -> bool) (l l' : list T) :
  Permutation l l' -> Permutation (filter p l) (filter p l').
Proof.
  induction 1 as [| x l l' _ IH | x y l | l l' l'' _ IH1 _ IH2]; simpl.
  - constructor.
  - destruct (p x); [constructor |]; exact IH.
  - destruct (p x), (p y); try apply Permutation_refl. apply perm_swap.
  - eapply perm_trans; eassumption.
Qed.

Lemma dropna_perm {T : Type} (s s' : list (option T)) :
  Permutation s s' -> Permutation (dropna s) (dropna s').
Proof.
  induction 1 as [| x l l' _ IH | x y l | l l' l'' _ IH1 _ IH2]; simpl.
  - constructor.
  - destruct x; [constructor |]; exact IH.
  - destruct x, y; try apply Permutation_refl. apply perm_swap.
  - eapply perm_trans; eassumption.
Qed.

Lemma nunique_perm (s s' : list string) :
  Permutation s s' -> nunique s = nunique s'.
Proof.
  intros H. unfold nunique. apply Permutation_length.
  apply NoDup_Permutation; try apply NoDup_nodup.
  intros x. rewrite !nodup_In. split; apply Permutation_in; [| symmetry]; exact H.
Qed.

Lemma series_max_perm (s s' : list Z) :
  Permutation s s' -> series_max s = series_max s'.
Proof.
  intros H. destruct (series_max s) as [m|] eqn:E.
  - symmetry. apply series_max_complete. apply series_max_spec in E as [Hin Hle].
    split; [eapply Permutation_in; eassumption |].
    intros x Hx. apply Hle. eapply Permutation_in; [symmetry |]; eassumption.
  - destruct s; [| discriminate]. apply Permutation_nil in H. subst. reflexivity.
Qed.

Lemma NoDup_map_inj_in {T U : Type} (f : T -> U) (l : list T) (x y : T) :
  NoDup (map f l) -> In x l -> In y l -> f x = f y -> x = y.
Proof.
  induction l as [|z l IH]; simpl; intros Hnd Hx Hy E; [destruct Hx |].
  inversion Hnd as [|z' l' Hz Hnd']; subst.
  destruct Hx as [<-|Hx], Hy as [<-|Hy]; auto.
  - exfalso. apply Hz. rewrite E. apply in_map, Hy.
  - exfalso. apply Hz. rewrite <- E. apply in_map, Hx.
Qed.

Lemma series_min_perm (s s' : list Z) :
  Permutation s s' -> series_min s = series_min s'.
Proof.
  intros H. destruct (series_min s) as [m|] eqn:E.
  - symmetry. apply series_min_complete. apply series_min_spec in E as [Hin Hle].
    split; [eapply Permutation_in; eassumption |].
    intros x Hx. apply Hle. eapply Permutation_in; [symmetry |]; eassumption.
  - destruct s; [| discriminate]. apply Permutation_nil in H. subst. reflexivity.
Qed.

(** Two lists in ascending order of a key that identifies their elements
    are equal when they hold the same elements. *)
Lemma ascending_perm_eq {T : Type} (key : T -> string) (l l' : list T) :
  StronglySorted (fun x y => String.leb (key x) (key y) = true) l ->
  StronglySorted (fun x y => String.leb (key x) (key y) = true) l' ->
  NoDup (map key l) ->
  Permutation l l' -> l = l'.
Proof.
  intros Hs. revert l'. induction Hs as [|x l Hs IH Hx]; intros l' Hs' Hnd Hp.
  - apply Permutation_nil in Hp. subst. reflexivity.
  - destruct Hs' as [|y l' Hs' Hy].
    + symmetry in Hp. apply Permutation_nil in Hp. discriminate.
    + assert (x = y).
      { rewrite Forall_forall in Hx, Hy.
        assert (Hyin : In y (x :: l))
          by (eapply Permutation_in; [symmetry; exact Hp | left; reflexivity]).
        assert (Hxin : In x (y :: l'))
          by (eapply Permutation_in; [exact Hp | left; reflexivity]).
        destruct Hyin as [E|Hyin]; [exact E |].
        destruct Hxin as [E|Hxin]; [symmetry; exact E |].
        apply (NoDup_map_inj_in key (x :: l)); auto;
          [left; reflexivity | right; exact Hyin |].
        apply String.leb_antisym; [apply Hx, Hyin | apply Hy, Hxin]. }
      subst y. f_equal. inversion Hnd; subst. apply IH; [exact Hs' | assumption |].
      eapply Permutation_cons_inv. exact Hp.
Qed.

Lemma sorted_keys_perm (s s' : list string) :
  Permutation s s' -> sorted_keys s = sorted_keys s'.
Proof.
  intros H. apply (ascending_perm_eq (fun k => k)); try apply sorted_keys_sorted.
  { rewrite map_id. apply sorted_keys_NoDup. }
  apply NoDup_Permutation; try apply sorted_keys_NoDup.
  intros x. rewrite !sorted_keys_In. split; apply Permutation_in; [| symmetry]; exact H.
Qed.

Lemma groupby_perm {R T : Type} (by_ : R -> option string) (f : list R -> T)
    (df df' : list R) :
  Permutation df df' ->
  (forall l l', Permutation l l' -> f l = f l') ->
  map (fun g => (fst g, f (snd g))) (groupby by_ df)
  = map (fun g => (fst g, f (snd g))) (groupby by_ df').
Proof.
  intros Hp Hf. unfold groupby. rewrite !map_map. simpl.
  rewrite (sorted_keys_perm (dropna_perm (Permutation_map by_ Hp))).
  apply map_ext. intros k. f_equal. apply Hf, filter_perm, Hp.
Qed.

Section RowOrder.
Context {A : Type} {N : Number A}.

(** The by-state rollup is the same table for any order of the rows. *)
Theorem create_bystate_df_row_order (df df' : Table A) :
  Permutation df df' -> create_bystate_df df = create_bystate_df df'.
Proof.
  intros Hp. unfold create_bystate_df.
  pose proof (groupby_perm (@customer_state A)
                (fun rows => nunique (map (@customer_id A) rows)) Hp) as H.
  rewrite <- (map_map (fun g => (fst g, nunique (map (@customer_id A) (snd g))))
                (fun kc => {| ByState.customer_state := Some (fst kc);
                              ByState.customer_count := snd kc |})).
  rewrite H.
  - rewrite map_map. reflexivity.
  - intros l l' Hl. apply nunique_perm, Permutation_map, Hl.
Qed.

(** For any order of the rows, [order_status_counts] is the same table
    and [payment_type_counts] holds the same counts, up to the order of
    its entries. *)
Theorem categorical_counters_row_order (df df' : Table A) :
  Permutation df df' ->
  order_status_counts df = order_status_counts df' /\
  Permutation (payment_type_counts df) (payment_type_counts df').
Proof.
  intros Hp.
  assert (Hvc : forall col : OrderLine A -> string,
             Permutation (value_counts (map col df)) (value_counts (map col df'))).
  { intros col. pose proof (Permutation_map col Hp) as Hc.
    eapply perm_trans; [apply value_counts_perm |].
    eapply perm_trans; [| symmetry; apply value_counts_perm].
    rewrite (map_ext (fun k => (k, count_rows k (map col df)))
                     (fun k => (k, count_rows k (map col df')))).
    - apply Permutation_map, NoDup_Permutation; try apply unique_NoDup.
      intros x. rewrite !unique_In. split; apply Permutation_in; [| symmetry]; exact Hc.
    - intros k. f_equal. unfold count_rows.
      apply Permutation_length, filter_perm, Hc. }
  split; [| apply Hvc].
  unfold order_status_counts, sort_index.
  apply (ascending_perm_eq (@fst string nat)); try apply argsort_string_sorted.
  - eapply Permutation_NoDup.
    + apply Permutation_map. symmetry.
      eapply perm_trans; [apply argsort_perm | apply value_counts_perm].
    + rewrite map_map. simpl. rewrite map_id. apply unique_NoDup.
  - eapply perm_trans; [apply argsort_perm |].
    eapply perm_trans; [apply Hvc | symmetry; apply argsort_perm].
Qed.

Context {E : ExactSum N}.

(** When amounts add without rounding, the daily rollup is the same
    table for any order of the rows. *)
Theorem create_daily_orders_df_row_order (df df' : Table A) :
  Permutation df df' ->
  create_daily_orders_df df = create_daily_orders_df df'.
Proof.
  intros Hp. unfold create_daily_orders_df, resample_D.
  rewrite (series_min_perm (Permutation_map (@order_purchase_timestamp A) Hp)).
  rewrite (series_max_perm (Permutation_map (@order_purchase_timestamp A) Hp)).
  destruct (series_min (map (@order_purchase_timestamp A) df')) as [first|];
    [| reflexivity].
  destruct (series_max (map (@order_purchase_timestamp A) df')) as [last|];
    [| reflexivity].
  rewrite !map_map. apply map_ext. intros d. simpl. f_equal.
  - apply nunique_perm, Permutation_map, filter_perm, Hp.
  - apply series_sum_perm, Permutation_map, filter_perm, Hp.
Qed.

(** When amounts add without rounding, the freight rollup is the same
    table for any order of the rows. *)
Theorem create_sum_freight_items_df_row_order (df df' : Table A) :
  Permutation df df' ->
  create_sum_freight_items_df df = create_sum_freight_items_df df'.
Proof.
  intros Hp.
  change (sort_values_descending num_leb (@FreightItems.freight_value A) (freight_groups df)
          = sort_values_descending num_leb (@FreightItems.freight_value A) (freight_groups df')).
  f_equal.
  assert (Hg : forall d : Table A,
             freight_groups d =
             map (fun kc => {| FreightItems.product_id := fst kc;
                               FreightItems.freight_value := snd kc |})
                 (map (fun g => (fst g, series_sum (map (@freight_value A) (snd g))))
                      (groupby (fun r : OrderLine A => Some (product_id r)) d))).
  { intros d. unfold freight_groups. rewrite map_map. reflexivity. }
  rewrite !Hg. f_equal.
  apply (groupby_perm (fun r : OrderLine A => Some (product_id r))
           (fun rows => series_sum (map (@freight_value A) rows)) Hp).
  intros l l' Hl. apply series_sum_perm, Permutation_map, Hl.
Qed.

(** When amounts add without rounding, [create_rfm_df] returns the same
    table for any order of the rows. *)
Theorem create_rfm_df_row_order (df df' : Table A) (w : World) :
  Permutation df df' ->
  result (create_rfm_df df w) = result (create_rfm_df df' w).
Proof.
  intros Hp. rewrite !create_rfm_df_run. simpl. f_equal.
  assert (Hg : forall d : Table A,
    map (rfm_entry d) (customer_groups d) =
    map (fun kc => {| Rfm.customer_id := fst kc;
                      Rfm.frequency := fst (fst (snd kc));
                      Rfm.monetary := snd (fst (snd kc));
                      Rfm.recency :=
                        days_of (series_max (map purchase_date d))
                                (option_map dt_date (snd (snd kc))) |})
        (map (fun g => (fst g, (nunique (map (@order_id A) (snd g)),
                                series_sum (map (@total_price A) (snd g)),
                                series_max (map (@order_purchase_timestamp A) (snd g)))))
             (groupby (fun r : OrderLine A => Some (customer_unique_id r)) d))).
  { intros d. unfold customer_groups, rfm_entry. rewrite map_map. reflexivity. }
  rewrite !Hg, (series_max_perm (Permutation_map purchase_date Hp)). f_equal.
  apply (groupby_perm (fun r : OrderLine A => Some (customer_unique_id r))
           (fun rows => (nunique (map (@order_id A) rows),
                         series_sum (map (@total_price A) rows),
                         series_max (map (@order_purchase_timestamp A) rows))) Hp).
  intros l l' Hl. f_equal; [f_equal |].
  - apply nunique_perm, Permutation_map, Hl.
  - apply series_sum_perm, Permutation_map, Hl.
  - apply series_max_perm, Permutation_map, Hl.
Qed.
End RowOrder.

(** * Totals over the groups *)

Section GroupTotals.
Context {A : Type} {N : Number A}.

Lemma string_groups_exclusive (key : OrderLine A -> string) (ks : list string) :
  groups_exclusive (fun k r => String.eqb k (key r)) ks.
Proof.
  intros r k k' _ _ H H'. apply String.eqb_eq in H, H'. congruence.
Qed.

Lemma string_groups_cover (key : OrderLine A -> string) (df : Table A) :
  groups_cover (fun k r => String.eqb k (key r))
    (sorted_keys (dropna (map (fun r => Some (key r)) df))) df.
Proof.
  intros r Hr. exists (key r). split; [| apply String.eqb_refl].
  apply sorted_keys_In, dropna_In, (in_map (fun r => Some (key r))), Hr.
Qed.

(** When amounts add without rounding, every customer of the RFM table
    has bought at least once, and the customer's monetary value is the
    sum of [total_price] over the customer's rows, in whatever order they
    are added. *)
Theorem create_rfm_df_monetary {E : ExactSum N}
  (df : Table A) (w : World) (c : string) :
  In c (map (@customer_unique_id A) df) ->
  exists out w' row,
    create_rfm_df df w = Some (out, w') /\
    In row out /\ Rfm.customer_id row = c /\
    (forall rows, Permutation rows (customer_rows c df) ->
       Rfm.monetary row = series_sum (map (@total_price A) rows)) /\
    (1 <= Rfm.frequency row)%nat.
Proof.
  intros Hc.
  assert (Hg : In (c, customer_rows c df) (customer_groups df))
    by (apply customer_groups_In; split; [exact Hc | reflexivity]).
  exists (map (rfm_entry df) (customer_groups df)), (after_tight_layout w),
         (rfm_entry df (c, customer_rows c df)).
  split; [apply create_rfm_df_run |].
  split; [apply in_map, Hg |]. split; [reflexivity |].
  split.
  { intros rows Hrows.
    rewrite (series_sum_perm (Permutation_map (@total_price A) Hrows)).
    reflexivity. }
  simpl. pose proof (groupby_nonempty _ _ _ Hg) as Hne. simpl in Hne.
  destruct (nunique (map (@order_id A) (customer_rows c df))) eqn:En; [| lia].
  apply nunique_zero, map_eq_nil in En. contradiction.
Qed.

(** When no order is shared between two customers, the frequencies of
    the RFM table add up to the number of distinct order_id values of the
    table. *)
Theorem create_rfm_df_frequency_total (df : Table A) (w : World) :
  (forall r r', In r df -> In r' df -> order_id r = order_id r' ->
                customer_unique_id r = customer_unique_id r') ->
  exists out w',
    create_rfm_df df w = Some (out, w') /\
    list_sum (map (@Rfm.frequency A) out) = nunique (map (@order_id A) df).
Proof.
  intros Hown.
  exists (map (rfm_entry df) (customer_groups df)), (after_tight_layout w).
  split; [apply create_rfm_df_run |].
  transitivity (grouped_nunique (@order_id A) is_customer
                  (map fst (customer_groups df)) df).
  - unfold grouped_nunique. rewrite !map_map.
    apply f_equal, map_ext_in. intros g Hg. simpl.
    apply customer_groups_In in Hg as [_ ->]. reflexivity.
  - unfold customer_groups. rewrite groupby_keys.
    apply grouped_nunique_eq_distinct.
    + apply sorted_keys_NoDup.
    + apply (string_groups_cover (@customer_unique_id A)).
    + intros r r' k k' Hr Hr' _ _ E Hk Hk'. unfold is_customer in *.
      apply String.eqb_eq in Hk, Hk'. subst. apply Hown; assumption.
Qed.

(** When every row has a state and no customer_id appears under two
    states, the customer counts of the by-state rollup add up to the
    number of distinct customer_id values of the table. *)
Theorem create_bystate_df_total (df : Table A) :
  (forall r, In r df -> customer_state r <> None) ->
  (forall r r', In r df -> In r' df -> customer_id r = customer_id r' ->
                customer_state r = customer_state r') ->
  list_sum (map ByState.customer_count (create_bystate_df df))
  = nunique (map (@customer_id A) df).
Proof.
  intros Hpresent Hone.
  transitivity (grouped_nunique (@customer_id A) in_state
                  (map fst (groupby (@customer_state A) df)) df).
  - unfold create_bystate_df, grouped_nunique. rewrite !map_map.
    apply f_equal, map_ext_in. intros g Hg. simpl.
    apply groupby_In in Hg as [_ ->]. reflexivity.
  - rewrite groupby_keys. apply grouped_nunique_eq_distinct.
    + apply sorted_keys_NoDup.
    + intros r Hr. destruct (customer_state r) as [s|] eqn:Es;
        [| exfalso; exact (Hpresent r Hr Es)].
      exists s. split.
      * apply sorted_keys_In, dropna_In. rewrite <- Es. apply in_map, Hr.
      * unfold in_state. rewrite Es. apply String.eqb_refl.
    + intros r r' k k' Hr Hr' _ _ E Hk Hk'. unfold in_state in *.
      apply key_is_true in Hk, Hk'. specialize (Hone r r' Hr Hr' E). congruence.
Qed.

(** The recency of a customer never exceeds the length of the selected
    date range: for the rows of [date_filter start_date end_date df] it is
    at most [end_date - start_date] days. *)
Theorem create_rfm_df_recency_within_range
    (df : Table A) (start_date end_date : Z) (w : World) :
  exists out w',
    create_rfm_df (date_filter start_date end_date df) w = Some (out, w') /\
    forall row, In row out -> 0 <= Rfm.recency row <= end_date - start_date.
Proof.
  set (main := date_filter start_date end_date df).
  exists (map (rfm_entry main) (customer_groups main)), (after_tight_layout w).
  split; [apply create_rfm_df_run |].
  intros row Hrow. apply in_map_iff in Hrow as (g & <- & Hg).
  assert (Hne : main <> []).
  { pose proof (groupby_nonempty _ _ _ Hg) as Hne.
    apply customer_groups_In in Hg as [_ Hg']. rewrite Hg' in Hne.
    intros E. rewrite E in Hne. apply Hne. reflexivity. }
  destruct (series_max_nonempty (s := map purchase_date main)) as [recent Hrecent].
  { destruct main; [congruence | discriminate]. }
  apply series_max_spec in Hrecent.
  destruct (rfm_entry_recency main g Hg Hrecent) as (last & [Hlast _] & ->).
  assert (Hin : forall d, In d (map purchase_date main) -> start_date <= d <= end_date).
  { intros d Hd. apply in_map_iff in Hd as (r & <- & Hr).
    apply date_filter_In in Hr as [_ Hr]. exact Hr. }
  assert (Hl : In last (map purchase_date main)).
  { apply in_map_iff in Hlast as (r & <- & Hr).
    apply customer_rows_In in Hr as [Hr _]. apply in_map, Hr. }
  destruct Hrecent as [Hrin Hrmax].
  pose proof (Hin _ Hrin). pose proof (Hin _ Hl). pose proof (Hrmax _ Hl). lia.
Qed.

Context {E : ExactSum N}.

(** Summing the group sums of a column over distinct, exclusive groups is
    summing the column over the rows that lie in one of the groups. *)
Lemma series_sum_partition (R K : Type) (f : R -> A) (p : K -> R -> bool)
    (ks : list K) (l : list R) :
  NoDup ks -> groups_exclusive p ks ->
  series_sum (map (fun k => series_sum (map f (filter (p k) l))) ks) =
  series_sum (map f (filter (fun r => existsb (fun k => p k r) ks) l)).
Proof.
  induction 1 as [|k ks Hk Hnd IH]; intros Hex; simpl.
  - rewrite filter_none. reflexivity.
  - rewrite series_sum_cons, IH.
    + symmetry. apply (series_sum_filter_orb f (p k)
                         (fun r => existsb (fun k' => p k' r) ks)).
      intros r _ Ep Ee. apply existsb_exists in Ee as (k' & Hk' & Ek').
      apply Hk. rewrite (Hex r k k' (or_introl eq_refl) (or_intror Hk') Ep Ek').
      exact Hk'.
    + intros r k0 k0' Hk0 Hk0'. apply Hex; right; assumption.
Qed.

Lemma series_sum_groups (key : OrderLine A -> string) (f : OrderLine A -> A)
    (df : Table A) :
  series_sum (map (fun g => series_sum (map f (snd g)))
                (groupby (fun r => Some (key r)) df))
  = series_sum (map f df).
Proof.
  unfold groupby. rewrite map_map. simpl.
  rewrite (@series_sum_partition _ _ f (fun k r => String.eqb k (key r))).
  - rewrite filter_all; [reflexivity |].
    intros r Hr. apply existsb_exists. exists (key r).
    split; [| apply String.eqb_refl].
    apply sorted_keys_In, dropna_In, (in_map (fun r => Some (key r))), Hr.
  - apply sorted_keys_NoDup.
  - apply string_groups_exclusive.
Qed.

(** When amounts add without rounding, the monetary values of the RFM
    table add up to the sum of [total_price] over the table. *)
Theorem create_rfm_df_monetary_total (df : Table A) (w : World) :
  exists out w',
    create_rfm_df df w = Some (out, w') /\
    series_sum (map (@Rfm.monetary A) out) = series_sum (map (@total_price A) df).
Proof.
  exists (map (rfm_entry df) (customer_groups df)), (after_tight_layout w).
  split; [apply create_rfm_df_run |].
  rewrite map_map. simpl.
  apply series_sum_groups with (key := @customer_unique_id A) (f := @total_price A).
Qed.

(** When amounts add without rounding, the sums of the freight rollup add
    up to the sum of [freight_value] over the table. *)
Theorem create_sum_freight_items_df_total (df : Table A) :
  series_sum (map (@FreightItems.freight_value A) (create_sum_freight_items_df df))
  = series_sum (map (@freight_value A) df).
Proof.
  rewrite (series_sum_perm
             (Permutation_map (@FreightItems.freight_value A)
                (create_sum_freight_items_df_perm df))).
  unfold freight_groups. rewrite map_map. simpl.
  apply series_sum_groups with (key := @product_id A) (f := @freight_value A).
Qed.
End GroupTotals.

(** * The counters, the charts' rows and their colours *)

Lemma nat_leb_sorted_descending {T : Type} (key : T -> nat) (l : list T) :
  StronglySorted (fun x y => (key y <= key x)%nat)
    (sort_values_descending Nat.leb key l).
Proof.
  unfold sort_values_descending.
  assert (H : StronglySorted (fun x y => Nat.leb (key y) (key x) = true)
                (nargsort_descending (fun x y => Nat.leb (key x) (key y)) l)).
  { apply nargsort_descending_sorted.
    - intros x y _ _. destruct (Nat.leb_spec (key x) (key y));
        [left; reflexivity | right; apply Nat.leb_le; lia].
    - intros x y z Hxy Hyz. apply Nat.leb_le. apply Nat.leb_le in Hxy, Hyz. lia.
    - apply Forall_forall. intros x _. apply Nat.leb_refl. }
  induction H as [|x s Hs IH Hx]; constructor; [exact IH |].
  eapply Forall_impl; [| exact Hx]. intros y Hy. apply Nat.leb_le, Hy.
Qed.

Lemma StronglySorted_app_inv {T : Type} (R : T -> T -> Prop) (l1 l2 : list T) :
  StronglySorted R (l1 ++ l2) -> forall x y, In x l1 -> In y l2 -> R x y.
Proof.
  induction l1 as [|a l1 IH]; simpl; intros Hs x y Hx Hy; [destruct Hx |].
  inversion Hs as [|a' l' Hs' Ha]; subst.
  destruct Hx as [<-|Hx].
  - rewrite Forall_forall in Ha. apply Ha, in_or_app. right; exact Hy.
  - apply IH; assumption.
Qed.

Lemma length_list_times {T : Type} (x : T) (n : Z) :
  List.length (list_times [x] n) = Z.to_nat n.
Proof.
  unfold list_times. induction (Z.to_nat n) as [|k IH]; simpl; [reflexivity |].
  rewrite IH. reflexivity.
Qed.

Section Charts.
Context {A : Type} {N : Number A}.

(** Every label that occurs in the column has its entry in the counter,
    with a count of at least one. *)
Theorem categorical_counters_complete (df : Table A) (r : OrderLine A) :
  In r df ->
  (exists n, In (order_status r, n) (order_status_counts df) /\ (1 <= n)%nat) /\
  (exists n, In (payment_type r, n) (payment_type_counts df) /\ (1 <= n)%nat).
Proof.
  intros Hr.
  assert (Hgen : forall (col : OrderLine A -> string) (c : list (string * nat)),
             Permutation (value_counts (map col df)) c ->
             exists n, In (col r, n) c /\ (1 <= n)%nat).
  { intros col c Hc. exists (count_rows (col r) (map col df)). split.
    - eapply Permutation_in; [exact Hc |].
      eapply Permutation_in; [symmetry; apply value_counts_perm |].
      apply in_map_iff. exists (col r). split; [reflexivity |].
      apply unique_In, in_map, Hr.
    - rewrite count_rows_map.
      assert (Hin : In r (filter (fun r' => String.eqb (col r) (col r')) df))
        by (apply filter_In; split; [exact Hr | apply String.eqb_refl]).
      destruct (filter (fun r' => String.eqb (col r) (col r')) df);
        [destruct Hin | simpl; lia]. }
  split; apply Hgen.
  - symmetry. apply sort_index_perm.
  - apply Permutation_refl.
Qed.

(** [order_status_counts] is in ascending order of label and
    [payment_type_counts] in non-increasing order of count. *)
Theorem categorical_counters_order (df : Table A) :
  StronglySorted (fun x y => String.leb (fst x) (fst y) = true /\ fst x <> fst y)
    (order_status_counts df) /\
  StronglySorted (fun x y => (snd y <= snd x)%nat) (payment_type_counts df).
Proof.
  split; [| apply nat_leb_sorted_descending].
  assert (Hnd : NoDup (map fst (order_status_counts df))).
  { eapply Permutation_NoDup.
    - apply Permutation_map. symmetry.
      eapply perm_trans; [apply sort_index_perm | apply value_counts_perm].
    - rewrite map_map. simpl. rewrite map_id. apply unique_NoDup. }
  pose proof (argsort_string_sorted (@fst string nat)
                (value_counts (map (@order_status A) df))) as Hs.
  fold (sort_index (value_counts (map (@order_status A) df))) in Hs.
  fold (order_status_counts df) in Hs.
  induction Hs as [|x l Hs IH Hx]; [constructor |].
  simpl in Hnd. inversion Hnd as [|k ks Hk Hnd']; subst.
  constructor; [apply IH, Hnd' |].
  apply Forall_forall. intros y Hy. rewrite Forall_forall in Hx.
  split; [apply Hx, Hy |]. intros E. apply Hk. rewrite E. apply in_map, Hy.
Qed.

(** The table of line 179 holds the groups of the by-state rollup in
    non-increasing order of customer count, so that its first row, the bar
    that line 182 colours differently, has the largest count. *)
Theorem bystate_sorted_largest_first (df : Table A) :
  let shown := bystate_sorted (create_bystate_df df) in
  Permutation shown (create_bystate_df df) /\
  StronglySorted
    (fun x y => (ByState.customer_count y <= ByState.customer_count x)%nat) shown /\
  (forall top rest, shown = top :: rest ->
     forall e, In e (create_bystate_df df) ->
               (ByState.customer_count e <= ByState.customer_count top)%nat).
Proof.
  intros shown.
  assert (Hp : Permutation shown (create_bystate_df df))
    by apply nargsort_descending_perm.
  assert (Hs : StronglySorted
                 (fun x y => (ByState.customer_count y <= ByState.customer_count x)%nat)
                 shown) by apply nat_leb_sorted_descending.
  split; [exact Hp |]. split; [exact Hs |].
  intros top rest E e He. rewrite E in Hs, Hp.
  apply (Permutation_in _ (Permutation_sym Hp)) in He.
  destruct He as [<-|He]; [apply Nat.le_refl |].
  inversion Hs as [|t r Hs' Ht]; subst. rewrite Forall_forall in Ht. apply Ht, He.
Qed.

(** The colour lists of lines 159 and 182 never fail on a short table: a
    repeat count that is zero or negative adds nothing, so the first list
    has five colours for up to five products and one per product beyond,
    and the second has one colour for an empty rollup and one per state
    otherwise. *)
Theorem chart_colors_length (sum_freight_items_df : list (FreightItems.row A))
    (bystate_df : list ByState.row) :
  List.length (freight_colors sum_freight_items_df)
    = Nat.max 5 (List.length sum_freight_items_df) /\
  List.length (bystate_colors bystate_df) = Nat.max 1 (List.length bystate_df) /\
  firstn 5 (freight_colors sum_freight_items_df) = repeat "#90CAF9" 5 /\
  firstn 1 (bystate_colors bystate_df) = ["#90CAF9"].
Proof.
  unfold freight_colors, bystate_colors.
  repeat split.
  - rewrite length_app, !length_list_times.
    change (Z.to_nat 5) with 5%nat.
    destruct (Nat.max_spec 5 (List.length sum_freight_items_df)) as [[? ->]|[? ->]]; lia.
  - rewrite length_app, length_list_times.
    change (List.length ["#90CAF9"]) with 1%nat.
    destruct (Nat.max_spec 1 (List.length bystate_df)) as [[? ->]|[? ->]]; lia.
Qed.

Context {L : TotalLeb N}.

(** When amounts add without rounding, the five rows charted as highest
    shipping cost have sums at least as large as every other row of the
    rollup, and the five charted as lowest have sums at most as large as
    every row before them; with five products or fewer both charts show
    the whole rollup. *)
Theorem shipping_charts_extremes {E : ExactSum N} (df : Table A) :
  (forall p, In p (map (@product_id A) df) ->
     comparable (series_sum (map (@freight_value A) (product_rows p df)))) ->
  let out := create_sum_freight_items_df df in
  (forall x y, In x (highest_shipping out) -> In y (skipn 5 out) ->
     num_leb (FreightItems.freight_value y) (FreightItems.freight_value x) = true) /\
  (forall x y, In x (firstn (List.length out - 5) out) -> In y (lowest_shipping out) ->
     num_leb (FreightItems.freight_value y) (FreightItems.freight_value x) = true) /\
  List.length out = nunique (map (@product_id A) df) /\
  ((nunique (map (@product_id A) df) <= 5)%nat ->
   highest_shipping out = out /\ lowest_shipping out = out).
Proof.
  intros Hcmp out.
  assert (Hs : StronglySorted
                 (fun x y => num_leb (FreightItems.freight_value y)
                                     (FreightItems.freight_value x) = true) out).
  { subst out. unfold create_sum_freight_items_df, sort_values_descending.
    apply nargsort_descending_sorted.
    - intros x y. apply num_leb_total.
    - intros x y z. apply num_leb_trans.
    - apply Forall_forall. intros e He. fold (freight_groups df) in He.
      rewrite (freight_groups_sum df e He). apply Hcmp.
      apply sorted_keys_In. rewrite <- freight_groups_ids. apply in_map, He. }
  assert (Hlen : List.length out = nunique (map (@product_id A) df)).
  { subst out. rewrite (Permutation_length (create_sum_freight_items_df_perm df)).
    rewrite <- (length_map (@FreightItems.product_id A)), freight_groups_ids.
    unfold sorted_keys, nunique. apply Permutation_length, argsort_perm. }
  unfold highest_shipping, lowest_shipping, df_head, df_tail.
  split; [| split; [| split; [exact Hlen |]]].
  - apply StronglySorted_app_inv. rewrite firstn_skipn. exact Hs.
  - apply StronglySorted_app_inv. rewrite firstn_skipn. exact Hs.
  - intros Hfew. rewrite <- Hlen in Hfew. split.
    + apply firstn_all2. exact Hfew.
    + replace (List.length out - 5)%nat with 0%nat by lia. reflexivity.
Qed.
End Charts.

(** * The further theorems at the sample tables *)

(** An order whose rows fall on two days is counted on both. *)
Example split_order_counted_twice :
  total_orders (create_daily_orders_df split_order) = 2%nat /\
  nunique (map (@order_id Z) split_order) = 1%nat.
Proof. split; reflexivity. Qed.

Lemma gap_orders_rev_perm : Permutation gap_orders (rev gap_orders).
Proof. apply Permutation_rev. Qed.

(** The default range at [gap_orders]. *)
Lemma default_range_selects_all_witness :
  min_date gap_orders = Some 17532 /\ max_date gap_orders = Some 17534 /\
  date_filter 17532 17534 gap_orders = gap_orders.
Proof.
  split; [reflexivity |]. split; [reflexivity |].
  apply (default_range_selects_all gap_orders); reflexivity.
Defined.

(** Days 9 to 5 at [gap_orders]. *)
Lemma inverted_range_selects_nothing_witness :
  5 < 9 /\ date_filter 9 5 gap_orders = [].
Proof.
  split; [reflexivity |].
  apply (inverted_range_selects_nothing gap_orders). reflexivity.
Defined.

(** The empty day of [gap_orders]. *)
Lemma daily_count_zero_iff_no_rows_witness :
  In {| DailyOrders.order_purchase_timestamp := midnight 17533;
        DailyOrders.order_count := 0%nat; DailyOrders.revenue := 0 |}
     (create_daily_orders_df gap_orders) /\
  forall r, In r gap_orders -> purchase_date r <> 17533.
Proof.
  assert (Hin : In {| DailyOrders.order_purchase_timestamp := midnight 17533;
                      DailyOrders.order_count := 0%nat; DailyOrders.revenue := 0 |}
                   (create_daily_orders_df gap_orders))
    by (right; left; reflexivity).
  split; [exact Hin |].
  exact (proj1 (proj1 (daily_count_zero_iff_no_rows gap_orders _ Hin)) eq_refl).
Defined.

(** The orders of [gap_orders] each lie on one day. *)
Lemma total_orders_distinct_witness :
  (forall r r', In r gap_orders -> In r' gap_orders -> order_id r = order_id r' ->
                purchase_date r = purchase_date r') /\
  total_orders (create_daily_orders_df gap_orders) = 2%nat.
Proof.
  assert (H : forall r r', In r gap_orders -> In r' gap_orders ->
                order_id r = order_id r' -> purchase_date r = purchase_date r').
  { intros r r' [<-|[<-|[<-|[]]]] [<-|[<-|[<-|[]]]] E;
      solve [reflexivity | discriminate E]. }
  split; [exact H |].
  rewrite (total_orders_distinct gap_orders H). reflexivity.
Defined.

(** Customer u1 of [gap_orders], in cents: two rows, 8500 in all,
    whichever of the two is added first. *)
Lemma create_rfm_df_monetary_witness :
  ExactSum cents /\
  In "u1" (map (@customer_unique_id Z) gap_orders) /\
  exists out w' row,
    create_rfm_df gap_orders w0 = Some (out, w') /\
    In row out /\ Rfm.customer_id row = "u1" /\
    Rfm.monetary row = 8500 /\
    Rfm.monetary row
      = series_sum (map (@total_price Z) (rev (customer_rows "u1" gap_orders))) /\
    (1 <= Rfm.frequency row)%nat.
Proof.
  assert (Hin : In "u1" (map (@customer_unique_id Z) gap_orders))
    by (left; reflexivity).
  split; [exact cents_exact |]. split; [exact Hin |].
  destruct (create_rfm_df_monetary (E := cents_exact) gap_orders w0 "u1" Hin)
    as (out & w' & row & Hrun & Hrow & Hid & Hm & Hf).
  exists out, w', row.
  split; [exact Hrun |]. split; [exact Hrow |]. split; [exact Hid |].
  split; [exact (Hm _ (Permutation_refl _)) |].
  split; [| exact Hf].
  apply Hm. symmetry. apply Permutation_rev.
Defined.

(** No order of [gap_orders] is shared between customers. *)
Lemma create_rfm_df_frequency_total_witness :
  (forall r r', In r gap_orders -> In r' gap_orders -> order_id r = order_id r' ->
                customer_unique_id r = customer_unique_id r') /\
  exists out w',
    create_rfm_df gap_orders w0 = Some (out, w') /\
    list_sum (map (@Rfm.frequency Z) out) = 2%nat.
Proof.
  assert (H : forall r r', In r gap_orders -> In r' gap_orders ->
                order_id r = order_id r' ->
                customer_unique_id r = customer_unique_id r').
  { intros r r' [<-|[<-|[<-|[]]]] [<-|[<-|[<-|[]]]] E;
      solve [reflexivity | discriminate E]. }
  split; [exact H |].
  destruct (create_rfm_df_frequency_total gap_orders w0 H) as (out & w' & Hrun & Hsum).
  exists out, w'. split; assumption.
Defined.

(** The monetary values of [gap_orders], in cents. *)
Lemma create_rfm_df_monetary_total_witness :
  ExactSum cents /\
  exists out w',
    create_rfm_df gap_orders w0 = Some (out, w') /\
    series_sum (map (@Rfm.monetary Z) out) = 12200.
Proof.
  split; [exact cents_exact |].
  destruct (create_rfm_df_monetary_total (E := cents_exact) gap_orders w0)
    as (out & w' & Hrun & Hsum).
  exists out, w'. split; assumption.
Defined.

(** [gap_orders] and its rows in reverse order, in cents. *)
Lemma create_rfm_df_row_order_witness :
  ExactSum cents /\ Permutation gap_orders (rev gap_orders) /\
  result (create_rfm_df gap_orders w0) = result (create_rfm_df (rev gap_orders) w0).
Proof.
  split; [exact cents_exact |]. split; [exact gap_orders_rev_perm |].
  apply (create_rfm_df_row_order (E := cents_exact) w0 gap_orders_rev_perm).
Defined.

Lemma create_daily_orders_df_row_order_witness :
  ExactSum cents /\ Permutation gap_orders (rev gap_orders) /\
  create_daily_orders_df gap_orders = create_daily_orders_df (rev gap_orders).
Proof.
  split; [exact cents_exact |]. split; [exact gap_orders_rev_perm |].
  apply (create_daily_orders_df_row_order (E := cents_exact) gap_orders_rev_perm).
Defined.

Lemma create_sum_freight_items_df_row_order_witness :
  ExactSum cents /\ Permutation gap_orders (rev gap_orders) /\
  create_sum_freight_items_df gap_orders = create_sum_freight_items_df (rev gap_orders).
Proof.
  split; [exact cents_exact |]. split; [exact gap_orders_rev_perm |].
  apply (create_sum_freight_items_df_row_order (E := cents_exact) gap_orders_rev_perm).
Defined.

Lemma create_sum_freight_items_df_total_witness :
  ExactSum cents /\
  series_sum (map (@FreightItems.freight_value Z) (create_sum_freight_items_df gap_orders))
  = 2200.
Proof.
  split; [exact cents_exact |].
  rewrite (create_sum_freight_items_df_total (E := cents_exact) gap_orders).
  reflexivity.
Defined.

Lemma create_bystate_df_row_order_witness :
  Permutation gap_orders (rev gap_orders) /\
  create_bystate_df gap_orders = create_bystate_df (rev gap_orders).
Proof.
  split; [exact gap_orders_rev_perm |].
  apply (create_bystate_df_row_order gap_orders_rev_perm).
Defined.

Lemma categorical_counters_row_order_witness :
  Permutation gap_orders (rev gap_orders) /\
  order_status_counts gap_orders = order_status_counts (rev gap_orders) /\
  Permutation (payment_type_counts gap_orders) (payment_type_counts (rev gap_orders)).
Proof.
  split; [exact gap_orders_rev_perm |].
  apply (categorical_counters_row_order gap_orders_rev_perm).
Defined.

(** Every row of [gap_orders] has a state, and each customer one state. *)
Lemma create_bystate_df_total_witness :
  (forall r, In r gap_orders -> customer_state r <> None) /\
  (forall r r', In r gap_orders -> In r' gap_orders -> customer_id r = customer_id r' ->
                customer_state r = customer_state r') /\
  list_sum (map ByState.customer_count (create_bystate_df gap_orders)) = 2%nat.
Proof.
  assert (H1 : forall r, In r gap_orders -> customer_state r <> None).
  { intros r [<-|[<-|[<-|[]]]]; discriminate. }
  assert (H2 : forall r r', In r gap_orders -> In r' gap_orders ->
                 customer_id r = customer_id r' -> customer_state r = customer_state r').
  { intros r r' [<-|[<-|[<-|[]]]] [<-|[<-|[<-|[]]]] E;
      solve [reflexivity | discriminate E]. }
  split; [exact H1 |]. split; [exact H2 |].
  rewrite (create_bystate_df_total gap_orders H1 H2). reflexivity.
Defined.

(** The shipped order of [gap_orders]. *)
Lemma categorical_counters_complete_witness :
  In (line "o2" "c2" "u2" (Some "RJ") "p1" "shipped" "boleto" 3000 700 (noon 17534))
     gap_orders /\
  (exists n, In ("shipped", n) (order_status_counts gap_orders) /\ (1 <= n)%nat) /\
  (exists n, In ("boleto", n) (payment_type_counts gap_orders) /\ (1 <= n)%nat).
Proof.
  assert (Hin : In (line "o2" "c2" "u2" (Some "RJ") "p1" "shipped" "boleto"
                      3000 700 (noon 17534)) gap_orders)
    by (right; right; left; reflexivity).
  split; [exact Hin |].
  apply (categorical_counters_complete gap_orders _ Hin).
Defined.

(** The shipping charts of [seven_products], in cents: seven products,
    the five dearest on one chart and the five cheapest on the other. *)
Lemma shipping_charts_extremes_witness :
  ExactSum cents /\
  TotalLeb cents /\
  (forall p, In p (map (@product_id Z) seven_products) ->
     comparable (series_sum (map (@freight_value Z) (product_rows p seven_products)))) /\
  map (fun e => (FreightItems.product_id e, FreightItems.freight_value e))
      (highest_shipping (create_sum_freight_items_df seven_products))
    = [("pa", 700); ("pb", 600); ("pe", 500); ("pf", 400); ("pc", 350)] /\
  map (fun e => (FreightItems.product_id e, FreightItems.freight_value e))
      (lowest_shipping (create_sum_freight_items_df seven_products))
    = [("pe", 500); ("pf", 400); ("pc", 350); ("pd", 200); ("pg", 100)] /\
  map (@FreightItems.product_id Z)
      (skipn 5 (create_sum_freight_items_df seven_products))
    = ["pd"; "pg"] /\
  (forall x y,
     In x (highest_shipping (create_sum_freight_items_df seven_products)) ->
     In y (skipn 5 (create_sum_freight_items_df seven_products)) ->
     num_leb (FreightItems.freight_value y) (FreightItems.freight_value x) = true) /\
  (forall x y,
     In x (firstn (List.length (create_sum_freight_items_df seven_products) - 5)
             (create_sum_freight_items_df seven_products)) ->
     In y (lowest_shipping (create_sum_freight_items_df seven_products)) ->
     num_leb (FreightItems.freight_value y) (FreightItems.freight_value x) = true) /\
  List.length (create_sum_freight_items_df seven_products) = 7%nat.
Proof.
  assert (Hcmp : forall p, In p (map (@product_id Z) seven_products) ->
            comparable (series_sum (map (@freight_value Z) (product_rows p seven_products)))).
  { intros p _. apply Z.leb_refl. }
  split; [exact cents_exact |]. split; [exact cents_total |].
  split; [exact Hcmp |].
  split; [reflexivity |]. split; [reflexivity |]. split; [reflexivity |].
  destruct (shipping_charts_extremes
              (E := cents_exact) (L := cents_total) seven_products Hcmp)
    as (Hhigh & Hlow & Hlen & _).
  split; [exact Hhigh |]. split; [exact Hlow |].
  rewrite Hlen. reflexivity.
Defined.
